(** * emsm.core.server: server wrappers, installation and address lookup

    A shallow embedding of [emsm/core/server.py].  The module wraps
    minecraft server executables: every wrapper class knows how to
    download and install its executable, how to translate console
    commands and how to read the address a world is bound to; the
    [ServerManager] keeps one wrapper instance per name.

    Conventions of the embedding:
    - Python [str] values are Rocq strings; a character is a code point
      below 256, on which [\d], [\s] and [str.strip] agree with Python.
    - the file system is a tree of [node]s, a path is its list of
      components;
    - methods with effects live in the monad [M]: a state (file system
      and current working directory) is threaded and an exception is the
      left summand of the result;
    - what the module cannot know (the network, the installer processes,
      the yaml parser, the application with its worlds) is the record
      [env] or an explicit argument;
    - calls of the logger are dropped, they have no effect on the state. *)

From stdpp Require Import gmap strings list pretty.
From Stdlib Require Import Ascii String ZArith Lia.

Set Warnings "-register-all".
Set Default Proof Using "Type".
Local Open Scope string_scope.
Local Open Scope list_scope.

(** ** Python strings *)

Module PyStr.

(** [str.isdigit]-style test used by [\d]: below 256 only "0".."9". *)
Definition is_digit (c : ascii) : bool :=
  let n := nat_of_ascii c in (48 <=? n)%nat && (n <=? 57)%nat.

(** Unicode white space below 256, the characters of [\s] and of
    [str.strip()]: TAB..CR, FS..US, SPACE, NEL and NBSP. *)
Definition is_space (c : ascii) : bool :=
  let n := nat_of_ascii c in
  ((9 <=? n)%nat && (n <=? 13)%nat) || ((28 <=? n)%nat && (n <=? 32)%nat)
  || (n =? 133)%nat || (n =? 160)%nat.

Definition newline : ascii := ascii_of_nat 10.

Definition is_empty (s : string) : bool :=
  match s with EmptyString => true | String _ _ => false end.

Fixpoint lstrip (s : string) : string :=
  match s with
  | String c s' => if is_space c then lstrip s' else s
  | EmptyString => EmptyString
  end.

Fixpoint rstrip (s : string) : string :=
  match s with
  | String c s' =>
      let r := rstrip s' in
      if is_space c && is_empty r then EmptyString else String c r
  | EmptyString => EmptyString
  end.

(** [s.strip()] *)
Definition strip (s : string) : string := rstrip (lstrip s).

(** [s.startswith(p)], returning the rest of [s] behind [p]. *)
Fixpoint strip_prefix (p s : string) : option string :=
  match p, s with
  | EmptyString, _ => Some s
  | String a p', String b s' =>
      if Ascii.eqb a b then strip_prefix p' s' else None
  | String _ _, EmptyString => None
  end.

Definition startswith (s p : string) : bool :=
  match strip_prefix p s with Some _ => true | None => false end.

(** [s[n:]] *)
Fixpoint drop (n : nat) (s : string) : string :=
  match n, s with
  | S n', String _ s' => drop n' s'
  | _, _ => s
  end.

(** [s[:n]] *)
Fixpoint take (n : nat) (s : string) : string :=
  match n, s with
  | S n', String c s' => String c (take n' s')
  | _, _ => EmptyString
  end.

(** [s.split(sep)] for a separator of one character. *)
Fixpoint split (sep : ascii) (s : string) : list string :=
  match s with
  | EmptyString => [EmptyString]
  | String c s' =>
      if Ascii.eqb c sep then EmptyString :: split sep s'
      else match split sep s' with
           | w :: ws => String c w :: ws
           | [] => [String c EmptyString]
           end
  end.

Definition digit_value (c : ascii) : Z := Z.of_nat (nat_of_ascii c) - 48.

Fixpoint int_acc (acc : Z) (s : string) : Z :=
  match s with
  | EmptyString => acc
  | String c s' => int_acc (10 * acc + digit_value c) s'
  end.

(** [int(s)] on a string of decimal digits. *)
Definition int (s : string) : Z := int_acc 0 s.

End PyStr.

(** ** The fragment of [re] the module uses

    Patterns are built from literal text, the classes [\d] and [\s]
    under a greedy bounded or unbounded repetition, the anchors [^] and
    [$] and one capture group.  The matcher backtracks like [sre]: a
    greedy repetition first takes as many characters as it can and gives
    them back one at a time when the rest of the pattern fails. *)

Module Re.
Import PyStr.

Inductive charset := CDigit | CSpace.

Inductive regex :=
| RLit (text : string)
| RBol
| REol
| RMany (cs : charset) (lo : nat) (hi : option nat)
| RSeq (r1 r2 : regex)
| RGroup (r : regex).

Definition in_charset (cs : charset) (c : ascii) : bool :=
  match cs with CDigit => is_digit c | CSpace => is_space c end.

(** A position in the subject: the character before it, if any, and
    the text from it on. *)
Definition at_bol (multiline : bool) (prev : option ascii) : bool :=
  match prev with
  | None => true
  | Some c => multiline && Ascii.eqb c newline
  end.

Definition at_eol (multiline : bool) (rest : string) : bool :=
  match rest with
  | EmptyString => true
  | String c rest' =>
      Ascii.eqb c newline && (multiline || is_empty rest')
  end.

Definition last_char (text : string) (prev : option ascii) : option ascii :=
  match String.length text with
  | O => prev
  | S n => String.get n text
  end.

Section Matcher.
Context {R : Type}.

(** Greedy [cs{lo,hi}] followed by the continuation [k]. *)
Fixpoint many (cs : charset) (lo : nat) (hi : option nat)
    (prev : option ascii) (s : string)
    (k : option ascii -> string -> option R) {struct s} : option R :=
  let stop := match lo with O => k prev s | S _ => None end in
  match s with
  | String c s' =>
      if in_charset cs c
         && match hi with Some O => false | _ => true end
      then match many cs (Nat.pred lo) (Nat.pred <$> hi) (Some c) s' k with
           | Some r => Some r
           | None => stop
           end
      else stop
  | EmptyString => stop
  end.

Fixpoint run (multiline : bool) (r : regex) (prev : option ascii)
    (s : string) (cap : option string)
    (k : option ascii -> string -> option string -> option R)
    {struct r} : option R :=
  match r with
  | RLit text =>
      match strip_prefix text s with
      | Some s' => k (last_char text prev) s' cap
      | None => None
      end
  | RBol => if at_bol multiline prev then k prev s cap else None
  | REol => if at_eol multiline s then k prev s cap else None
  | RMany cs lo hi => many cs lo hi prev s (fun p s' => k p s' cap)
  | RSeq r1 r2 =>
      run multiline r1 prev s cap
        (fun p s' c => run multiline r2 p s' c k)
  | RGroup r' =>
      run multiline r' prev s cap
        (fun p s' _ =>
           k p s' (Some (take (String.length s - String.length s') s)))
  end.
End Matcher.

(** The match of [r] at one position: the text of group 1 (the empty
    string when the pattern has none) and the text behind the match. *)
Definition match_at (multiline : bool) (r : regex) (prev : option ascii)
    (s : string) : option (string * string) :=
  run multiline r prev s None
    (fun _ s' cap => Some (default EmptyString cap, s')).

(** [re.match(r, s)]: a match at the start of [s], or [None]. *)
Definition re_match (r : regex) (s : string) : option (string * string) :=
  match_at false r None s.

(** [re.findall(r, s, re.MULTILINE)] for a pattern with one group:
    the group's text of every match, scanning from the left, a match
    starting where the previous one ended.  [skip] counts the
    characters of the current match still to pass. *)
Fixpoint findall_from (r : regex) (prev : option ascii) (s : string)
    (skip : nat) {struct s} : list string :=
  match skip with
  | S skip' =>
      match s with
      | String c s' => findall_from r (Some c) s' skip'
      | EmptyString => []
      end
  | O =>
      match match_at true r prev s with
      | Some (g, s') =>
          g :: match s with
               | String c t =>
                   findall_from r (Some c) t
                     (Nat.pred (String.length s - String.length s'))
               | EmptyString => []
               end
      | None =>
          match s with
          | String c t => findall_from r (Some c) t O
          | EmptyString => []
          end
      end
  end.

Definition findall (r : regex) (s : string) : list string :=
  findall_from r None s O.

(** The truth value of [re.match(r, s)] *)
Definition matches (r : regex) (s : string) : bool :=
  match re_match r s with Some _ => true | None => false end.

Definition seq (rs : list regex) : regex :=
  foldr RSeq (RLit EmptyString) rs.

(** [\s*] *)
Definition spaces : regex := RMany CSpace 0 None.
(** [\d{lo,hi}] *)
Definition digits (lo hi : nat) : regex := RMany CDigit lo (Some hi).
(** [\d{1,3}\.\d{1,3}\.\d{1,3}\.\d{1,3}] *)
Definition dotted_quad : regex :=
  seq [digits 1 3; RLit "."; digits 1 3; RLit "."; digits 1 3; RLit ".";
       digits 1 3].

(** *** What a pattern describes

    [lang multiline r prev s prev' s']: the pattern [r] can match at the
    position [(prev, s)] and end at the position [(prev', s')]. *)

Fixpoint all_in (cs : charset) (w : string) : bool :=
  match w with
  | EmptyString => true
  | String c w' => in_charset cs c && all_in cs w'
  end.

Definition within (hi : option nat) (n : nat) : Prop :=
  match hi with Some h => (n ≤ h)%nat | None => True end.

Fixpoint lang (multiline : bool) (r : regex) (prev : option ascii)
    (s : string) (prev' : option ascii) (s' : string) : Prop :=
  match r with
  | RLit text => s = text +:+ s' ∧ prev' = last_char text prev
  | RBol => at_bol multiline prev = true ∧ s' = s ∧ prev' = prev
  | REol => at_eol multiline s = true ∧ s' = s ∧ prev' = prev
  | RMany cs lo hi =>
      ∃ w, s = w +:+ s' ∧ all_in cs w = true ∧ (lo ≤ String.length w)%nat
           ∧ within hi (String.length w) ∧ prev' = last_char w prev
  | RSeq r1 r2 =>
      ∃ p1 s1, lang multiline r1 prev s p1 s1
               ∧ lang multiline r2 p1 s1 prev' s'
  | RGroup r' => lang multiline r' prev s prev' s'
  end.

End Re.

(** ** The file system *)

Module FS.

Definition path := list string.

Inductive node :=
| File (data : string)
| Dir (children : gmap string node).

(** The node at [p] below [n]. *)
Fixpoint lookup (p : path) (n : node) : option node :=
  match p with
  | [] => Some n
  | c :: p' =>
      match n with
      | Dir ch => ch !! c ≫= lookup p'
      | File _ => None
      end
  end.

(** Put [v] at [p] ([None] removes the entry).  Fails when the parent
    of [p] is not a directory of the tree. *)
Fixpoint write (p : path) (v : option node) (n : node) : option node :=
  match p with
  | [] => None
  | c :: p' =>
      match n with
      | File _ => None
      | Dir ch =>
          match p' with
          | [] =>
              Some (Dir (match v with
                         | Some x => <[c:=x]> ch
                         | None => delete c ch
                         end))
          | _ :: _ =>
              n' ← ch !! c ≫= write p' v;
              Some (Dir (<[c:=n']> ch))
          end
      end
  end.

(** Create the directory [p] and the missing directories above it. *)
Fixpoint mkdirs (p : path) (n : node) : option node :=
  match n with
  | File _ => None
  | Dir ch =>
      match p with
      | [] => Some n
      | c :: p' =>
          n' ← mkdirs p' (default (Dir ∅) (ch !! c));
          Some (Dir (<[c:=n']> ch))
      end
  end.

Definition is_dir (o : option node) : bool :=
  match o with Some (Dir _) => true | _ => false end.

Definition is_file (o : option node) : bool :=
  match o with Some (File _) => true | _ => false end.

(** [os.path.basename] *)
Definition basename (p : path) : string := List.last p EmptyString.

(** [os.path.join(p, name)] *)
Definition join (p : path) (name : string) : path := p ++ [name].

Definition show (p : path) : string :=
  String.concat "" (map (String.append "/") p).

End FS.

Import FS.

(** ** Python objects and exceptions *)

Inductive server_class :=
| Vanilla_1_2 | Vanilla_1_3 | Vanilla_1_4 | Vanilla_1_5 | Vanilla_1_6
| Vanilla_1_7 | Vanilla_1_8
| MinecraftForge_1_6 | MinecraftForge_1_7
| BungeeCordServerWrapper
| Spigot
| MCServer.

Global Instance server_class_eq_dec : EqDecision server_class.
Proof. solve_decision. Defined.

(** A section of [server.conf]: the options the wrappers read. The
    [build_dir] option is held as the absolute path that
    [os.path.abspath(os.path.expanduser(...))] makes of it. *)
Record conf := {
  conf_url : option string;
  conf_start_command : option string;
  conf_build_dir : option path;
}.

Definition empty_conf : conf :=
  {| conf_url := None; conf_start_command := None; conf_build_dir := None |}.

(** An instance of a wrapper class: [oid] is the identity of the object
    (what [is] compares), [_server] and [_conf] are the attributes set by
    [BaseServerWrapper.__init__]. *)
Record server := {
  cls : server_class;
  oid : nat;
  _server : path;
  _conf : conf;
}.

Inductive pyobj :=
| PNone
| PStr (s : string)
| PServer (s : server)
| PExc (e : exc)
with exc :=
| OSError (msg : string)
| TypeError (msg : string)
| ValueError (msg : string)
| KeyError (msg : string)
| RuntimeError (msg : string)
| AttributeError (msg : string)
| AssertionError
| NotImplementedError
| YAMLError (msg : string)
| ServerInstallationFailure (server : pyobj) (msg : string)
| ServerIsOnlineError (server : pyobj) (msg : string).

(** [except (OSError, IOError)]: [FileNotFoundError], [shutil.Error] and
    [urllib.error.URLError] are all [OSError]s. *)
Definition is_OSError (e : exc) : bool :=
  match e with OSError _ => true | _ => false end.

(** ** The state and the monad of effects *)

Record state := {
  fs : node;
  cwd : path;
  tmp_seq : nat;
}.

Definition M (A : Type) : Type := state -> (exc + A) * state.

Definition ret {A} (x : A) : M A := fun st => (inr x, st).

Definition raise {A} (e : exc) : M A := fun st => (inl e, st).

Definition bind {A B} (m : M A) (k : A -> M B) : M B :=
  fun st =>
    match m st with
    | (inr x, st') => k x st'
    | (inl e, st') => (inl e, st')
    end.

Declare Scope py_scope.
Delimit Scope py_scope with py.
Notation "x <- m ;; k" := (bind m (fun x => k))
  (at level 100, m at next level, right associativity) : py_scope.
Notation "m ;; k" := (bind m (fun _ => k))
  (at level 100, right associativity) : py_scope.
Local Open Scope py_scope.

(** [try: m  except: h(e)] *)
Definition try_except {A} (m : M A) (h : exc -> M A) : M A :=
  fun st =>
    match m st with
    | (inr x, st') => (inr x, st')
    | (inl e, st') => h e st'
    end.

(** [try: m  except Exception as e: h(e)  else: k(x)]: the handler does
    not guard the [else] suite. *)
Definition try_except_else {A B} (m : M A) (h : exc -> M B) (k : A -> M B)
    : M B :=
  fun st =>
    match m st with
    | (inr x, st') => k x st'
    | (inl e, st') => h e st'
    end.

(** [try: m  finally: f]: [f] always runs; when it raises, its exception
    replaces the outcome of [m]. *)
Definition try_finally {A} (m : M A) (f : M unit) : M A :=
  fun st =>
    let '(r, st') := m st in
    match f st' with
    | (inr _, st'') => (r, st'')
    | (inl e, st'') => (inl e, st'')
    end.

(** Lift a value of [exc + A], e.g. the result of a pure method. *)
Definition lift {A} (r : exc + A) : M A :=
  match r with inr x => ret x | inl e => raise e end.

Definition when (b : bool) (m : M unit) : M unit :=
  if b then m else ret tt.

(** *** File system calls *)

Definition set_fs (n : node) : M unit :=
  fun st => (inr tt, {| fs := n; cwd := cwd st; tmp_seq := tmp_seq st |}).

(** [os.path.exists(p)] *)
Definition os_path_exists (p : path) : M bool :=
  fun st => (inr (bool_decide (is_Some (lookup p (fs st)))), st).

(** [os.path.isdir(p)] *)
Definition os_path_isdir (p : path) : M bool :=
  fun st => (inr (is_dir (lookup p (fs st))), st).

(** A call of [os.path.exists()] or [os.path.isdir()] without the
    argument the function requires. *)
Definition missing_argument {A} (f arg : string) : M A :=
  raise (TypeError (f +:+ "() missing 1 required positional argument: '"
                    +:+ arg +:+ "'")).

Definition write_or {A} (e : exc) (o : option node) (x : A) : M A :=
  match o with
  | Some n => set_fs n ;; ret x
  | None => raise e
  end.

(** [shutil.rmtree(p)] *)
Definition shutil_rmtree (p : path) : M unit :=
  fun st =>
    if is_dir (lookup p (fs st))
    then write_or (OSError "rmtree") (write p None (fs st)) tt st
    else raise (OSError "rmtree: not a directory") st.

(** [os.remove(p)] *)
Definition os_remove (p : path) : M unit :=
  fun st =>
    if is_file (lookup p (fs st))
    then write_or (OSError "remove") (write p None (fs st)) tt st
    else raise (OSError "remove: not a file") st.

(** [os.makedirs(p)] *)
Definition os_makedirs (p : path) : M unit :=
  fun st =>
    if bool_decide (is_Some (lookup p (fs st)))
    then raise (OSError "makedirs: file exists") st
    else write_or (OSError "makedirs") (mkdirs p (fs st)) tt st.

(** [os.chdir(p)] *)
Definition os_chdir (p : path) : M unit :=
  fun st =>
    if is_dir (lookup p (fs st))
    then (inr tt, {| fs := fs st; cwd := p; tmp_seq := tmp_seq st |})
    else raise (OSError "chdir: not a directory") st.

(** [os.path.samefile(p, os.curdir)]: both paths are followed; in a tree
    without links they name the same file when they are equal. *)
Definition os_path_samefile_curdir (p : path) : M bool :=
  fun st =>
    if bool_decide (is_Some (lookup p (fs st)))
       && bool_decide (is_Some (lookup (cwd st) (fs st)))
    then (inr (bool_decide (p = cwd st)), st)
    else raise (OSError "samefile: no such file") st.

(** [os.rename(src, dst)]: a file replaces a file, a directory an empty
    directory. *)
Definition os_rename (src dst : path) : M unit :=
  fun st =>
    match lookup src (fs st), lookup dst (fs st) with
    | None, _ => raise (OSError "rename: no such file") st
    | Some (File _), Some (Dir _) =>
        raise (OSError "rename: is a directory") st
    | Some (Dir _), Some (File _) =>
        raise (OSError "rename: not a directory") st
    | Some (Dir _ as n), Some (Dir ch) =>
        if bool_decide (size ch = 0)
        then write_or (OSError "rename")
               (write src None (fs st) ≫= write dst (Some n)) tt st
        else raise (OSError "rename: directory not empty") st
    | Some n, _ =>
        write_or (OSError "rename")
          (write src None (fs st) ≫= write dst (Some n)) tt st
    end.

(** [shutil.move(src, dst)]: into [dst] when it is a directory, onto
    [dst] otherwise; returns the path the source now has.  All paths are
    on one file system, where the copy [shutil.move] falls back on fails
    whenever [os.rename] does. *)
Definition shutil_move (src dst : path) : M path :=
  d <- os_path_isdir dst ;;
  if d then
    let real_dst := join dst (basename src) in
    e <- os_path_exists real_dst ;;
    if e then raise (OSError "Destination path already exists")
    else os_rename src real_dst ;; ret real_dst
  else os_rename src dst ;; ret dst.

(** [tempfile.gettempdir()] *)
Definition tempdir : path := ["tmp"].

(** The names of temporary files and directories are drawn in sequence. *)
Definition fresh_name (prefix : string) : M string :=
  fun st =>
    (inr (prefix +:+ pretty (tmp_seq st)),
     {| fs := fs st; cwd := cwd st; tmp_seq := S (tmp_seq st) |}).

(** [tempfile.mkdtemp(prefix=prefix)] *)
Definition tempfile_mkdtemp (prefix : string) : M path :=
  name <- fresh_name prefix ;;
  let p := join tempdir name in
  e <- os_path_exists p ;;
  if e then raise (OSError "mkdtemp: file exists")
  else
    fun st => write_or (OSError "mkdtemp") (write p (Some (Dir ∅)) (fs st)) p st.

(** [with tempfile.TemporaryDirectory() as d: body(d)]: the directory is
    removed when the block is left, whatever the outcome. *)
Definition with_TemporaryDirectory {A} (body : path -> M A) : M A :=
  d <- tempfile_mkdtemp "tmp" ;;
  try_finally (body d) (shutil_rmtree d).

(** ** The collaborators of the module *)

(** A world of the application, as far as the wrappers look at it:
    [w_server] is the identity of the object [w.server()] returns. *)
Record world := {
  w_server : nat;
  w_is_online : bool;
  w_directory : path;
}.

(** The parent application: [app.paths().server()], the sections of
    [app.conf().server()] and the worlds of [app.worlds()]. *)
Record application := {
  paths_server : path;
  conf_server : gmap string conf;
  worlds : list world;
}.

(** What a finished child process leaves behind: its return code and the
    entries it created in its working directory. *)
Record process := {
  returncode : Z;
  produced : gmap string node;
}.

(** The nodes [yaml.load] builds.  A mapping keeps its entries in the
    order of the document, a later entry wins over an earlier one with
    an equal key.  Floats, timestamps, sets and binary scalars are not
    modelled. *)
Inductive yaml :=
| YNull
| YBool (b : bool)
| YInt (z : Z)
| YStr (s : string)
| YSeq (items : list yaml)
| YMap (entries : list (yaml * yaml)).

(** The world outside: what a URL serves, what a command does when it
    runs in a directory, what [yaml.load] makes of a text. *)
Record env := {
  fetch : string -> exc + string;
  popen : list string -> path -> exc + process;
  yaml_load : string -> exc + yaml;
}.

(** ** Exceptions of the module *)

(** [cls.name()] *)
Definition name (c : server_class) : exc + string :=
  match c with
  | Vanilla_1_2 => inr "vanilla 1.2"
  | Vanilla_1_3 => inr "vanilla 1.3"
  | Vanilla_1_4 => inr "vanilla 1.4"
  | Vanilla_1_5 => inr "vanilla 1.5"
  | Vanilla_1_6 => inr "vanilla 1.6"
  | Vanilla_1_7 => inr "vanilla 1.7"
  | Vanilla_1_8 => inr "vanilla 1.8"
  | MinecraftForge_1_6 => inr "minecraft forge 1.6"
  | MinecraftForge_1_7 => inr "minecraft forge 1.7"
  | BungeeCordServerWrapper => inr "bungeecord"
  | Spigot => inr "spigot latest"
  | MCServer => inl NotImplementedError
  end.

(** [o.server.name()] as the [__str__] methods of the exceptions call
    it: only a wrapper has the method. *)
Definition server_name_of (o : pyobj) : exc + string :=
  match o with
  | PServer s => name (cls s)
  | _ => inl (AttributeError "object has no attribute 'name'")
  end.

(** [str(e)] for an exception [e] *)
Definition exc_str (e : exc) : exc + string :=
  match e with
  | OSError m | TypeError m | ValueError m | KeyError m | RuntimeError m
  | AttributeError m | YAMLError m => inr m
  | AssertionError | NotImplementedError => inr ""
  | ServerInstallationFailure srv m =>
      match server_name_of srv with
      | inr n =>
          inr ("The installation of the server '" +:+ n +:+ "' failed."
               +:+ " " +:+ m)
      | inl e' => inl e'
      end
  | ServerIsOnlineError srv m =>
      match server_name_of srv with
      | inr n => inr ("The server '" +:+ n +:+ "' is online. " +:+ m)
      | inl e' => inl e'
      end
  end.

(** [str(o)] *)
Definition py_str (o : pyobj) : exc + string :=
  match o with
  | PNone => inr "None"
  | PStr s => inr s
  | PServer _ => inr "<emsm.core.server object>"
  | PExc e => exc_str e
  end.

(** [raise ServerInstallationFailure(server, msg)]: [__init__] stores
    [server] and [str(msg)]; the default of [msg] is [None]. *)
Definition raise_ServerInstallationFailure {A} (server msg : pyobj) : M A :=
  match py_str msg with
  | inr m => raise (ServerInstallationFailure server m)
  | inl e => raise e
  end.

(** ** BaseServerWrapper *)

(** [self.server()] *)
Definition server_path (self : server) : path := _server self.

(** [cls.default_url(self)] *)
Definition default_url (c : server_class) : exc + string :=
  match c with
  | Vanilla_1_2 => inr "http://s3.amazonaws.com/Minecraft.Download/versions/1.2.5/minecraft_server.1.2.5.jar"
  | Vanilla_1_3 => inr "http://s3.amazonaws.com/Minecraft.Download/versions/1.3.2/minecraft_server.1.3.2.jar"
  | Vanilla_1_4 => inr "http://s3.amazonaws.com/Minecraft.Download/versions/1.4.7/minecraft_server.1.4.7.jar"
  | Vanilla_1_5 => inr "http://s3.amazonaws.com/Minecraft.Download/versions/1.5.2/minecraft_server.1.5.2.jar"
  | Vanilla_1_6 => inr "https://s3.amazonaws.com/Minecraft.Download/versions/1.6.4/minecraft_server.1.6.4.jar"
  | Vanilla_1_7 => inr "https://s3.amazonaws.com/Minecraft.Download/versions/1.7.10/minecraft_server.1.7.10.jar"
  | Vanilla_1_8 => inr "https://s3.amazonaws.com/Minecraft.Download/versions/1.8.1/minecraft_server.1.8.1.jar"
  | MinecraftForge_1_6 => inr "http://files.minecraftforge.net/minecraftforge/minecraftforge-installer-1.6.4-9.11.1.916.jar"
  | MinecraftForge_1_7 => inr "http://files.minecraftforge.net/maven/net/minecraftforge/forge/1.7.10-10.13.2.1291/forge-1.7.10-10.13.2.1291-installer.jar"
  | BungeeCordServerWrapper => inr "http://ci.md-5.net/job/BungeeCord/lastSuccessfulBuild/artifact/bootstrap/target/BungeeCord.jar"
  | Spigot => inr "https://hub.spigotmc.org/jenkins/job/BuildTools/lastSuccessfulBuild/artifact/target/BuildTools.jar"
  | MCServer => inl NotImplementedError
  end.

(** [self.url()] *)
Definition url (self : server) : exc + string :=
  match conf_url (_conf self) with
  | Some u => inr u
  | None => default_url (cls self)
  end.

(** [self.is_installed()] *)
Definition is_installed (self : server) : M bool :=
  os_path_exists (_server self).

(** [self.is_online()]: [get_by_pred] filters the worlds, [bool] of the
    list tells whether one is left. *)
Definition is_online (app : application) (self : server) : bool :=
  match List.filter
          (fun w => Nat.eqb (w_server w) (oid self) && w_is_online w)
          (worlds app)
  with
  | [] => false
  | _ :: _ => true
  end.

(** *** Network and processes *)

Definition write_file (f : path) (data : string) : M path :=
  fun st =>
    if is_dir (lookup f (fs st))
    then raise (OSError "open: is a directory") st
    else write_or (OSError "open") (write f (Some (File data)) (fs st)) f st.

(** [urllib.request.urlretrieve(url, filename)[0]]: the document is
    stored in [filename], or in a new temporary file. *)
Definition urllib_request_urlretrieve (E : env) (u : string)
    (filename : option path) : M path :=
  data <- lift (fetch E u) ;;
  match filename with
  | Some f => write_file f data
  | None => n <- fresh_name "tmp" ;; write_file (join tempdir n) data
  end.

(** [subprocess.Popen(argv, cwd=wd)] with [communicate()]: the entries
    the process produced appear in [wd]; the return code is the
    result. *)
Definition run_process (E : env) (argv : list string) (wd : path) : M Z :=
  pr <- lift (popen E argv wd) ;;
  fun st =>
    match lookup wd (fs st) with
    | Some (Dir ch) =>
        match wd with
        | [] => (inr (returncode pr),
                 {| fs := Dir (produced pr ∪ ch); cwd := cwd st;
                    tmp_seq := tmp_seq st |})
        | _ :: _ =>
            write_or (OSError "popen")
              (write wd (Some (Dir (produced pr ∪ ch))) (fs st))
              (returncode pr) st
        end
    | _ => raise (OSError "popen: no such directory") st
    end.

Definition get_cwd : M path := fun st => (inr (cwd st), st).

Definition endswith (s p : string) : bool :=
  (String.length p <=? String.length s)%nat
  && String.eqb (PyStr.drop (String.length s - String.length p) s) p.

(** [glob.glob(os.path.join(d, "spigot-*.jar"))] *)
Definition glob_spigot_jar (d : path) : M (list path) :=
  fun st =>
    match lookup d (fs st) with
    | Some (Dir ch) =>
        (inr (map (join d)
                (List.filter
                   (fun n => PyStr.startswith n "spigot-" && endswith n ".jar"
                             && (11 <=? String.length n)%nat)
                   (map fst (map_to_list ch)))), st)
    | _ => (inr [], st)
    end.

(** *** install *)

(** [VanillaBase.install] *)
Definition VanillaBase_install (E : env) (self : server) : M unit :=
  inst <- is_installed self ;;
  if inst then ret tt
  else
    try_except_else
      (u <- lift (url self) ;; urllib_request_urlretrieve E u None)
      (fun err => raise_ServerInstallationFailure (PServer self) (PExc err))
      (fun tmp_path => shutil_move tmp_path (server_path self) ;; ret tt).

(** [BungeeCordServerWrapper.install] *)
Definition BungeeCordServerWrapper_install (E : env) (self : server)
    : M unit :=
  inst <- is_installed self ;;
  if inst then ret tt
  else
    try_except_else
      (u <- lift (url self) ;; urllib_request_urlretrieve E u None)
      (fun err => raise_ServerInstallationFailure (PExc err) PNone)
      (fun tmp_path => shutil_move tmp_path (server_path self) ;; ret tt).

(** [MinecraftForgeBase.install] *)
Definition MinecraftForgeBase_install (E : env) (self : server) : M unit :=
  inst <- is_installed self ;;
  if inst then ret tt
  else
    try_except
      (try_except_else
         (u <- lift (url self) ;; urllib_request_urlretrieve E u None)
         (fun err => raise_ServerInstallationFailure (PExc err) PNone)
         (fun tmp_path =>
            e <- os_path_exists (server_path self) ;;
            when e (shutil_rmtree (server_path self)) ;;
            os_makedirs (server_path self) ;;
            os_chdir (server_path self) ;;
            same <- os_path_samefile_curdir (server_path self) ;;
            (if same then ret tt
             else raise_ServerInstallationFailure (PServer self)
                    (PStr ("Could not chdir to " +:+ show (server_path self)))) ;;
            let sys_install_cmd :=
              ["java"; "-jar"; show tmp_path; "--installServer"] in
            try_except
              (wd <- get_cwd ;;
               rc <- run_process E sys_install_cmd wd ;;
               if (rc =? 0)%Z then ret tt
               else raise_ServerInstallationFailure (PServer self)
                      (PStr ("Installer returned with '" +:+ pretty rc +:+ "'.")))
              (fun err =>
                 raise_ServerInstallationFailure (PServer self) (PExc err))))
      (fun _ =>
         e <- os_path_exists (server_path self) ;;
         when e (shutil_rmtree (server_path self))) ;;
    ret tt.

(** [Spigot.build_dir] *)
Definition Spigot_build_dir (self : server) : M path :=
  match conf_build_dir (_conf self) with
  | Some d => ret d
  | None => tempfile_mkdtemp "spigotmc"
  end.

(** [Spigot.install] *)
Definition Spigot_install (E : env) (self : server) : M unit :=
  inst <- is_installed self ;;
  if inst then ret tt
  else
    build_dir <- Spigot_build_dir self ;;
    try_finally
      (buildtools <-
         try_except
           (u <- lift (url self) ;;
            urllib_request_urlretrieve E u
              (Some (join build_dir "BuildTools.jar")))
           (fun err =>
              raise_ServerInstallationFailure (PServer self) (PExc err)) ;;
       rc <- run_process E ["java"; "-jar"; show buildtools] build_dir ;;
       (if (rc =? 0)%Z then ret tt
        else raise_ServerInstallationFailure (PServer self)
               (PStr ("Installer returned with '" +:+ pretty rc +:+ "'."))) ;;
       jarfiles <-
         glob_spigot_jar (build_dir ++ ["Spigot"; "Spigot-Server"; "target"]) ;;
       match jarfiles with
       | jarfile :: _ => shutil_move jarfile (server_path self) ;; ret tt
       | [] =>
           raise_ServerInstallationFailure (PServer self)
             (PStr "Could not find built spigot-*.jar file.")
       end)
      (match conf_build_dir (_conf self) with
       | None => shutil_rmtree build_dir
       | Some _ => ret tt
       end) ;;
    ret tt.

(** [self.install()], by the class of [self]: the forge classes take
    [install] from [MinecraftForgeBase], which comes before the vanilla
    class in their method resolution order; [MCServer] inherits the
    abstract method. *)
Definition install (E : env) (self : server) : M unit :=
  match cls self with
  | Vanilla_1_2 | Vanilla_1_3 | Vanilla_1_4 | Vanilla_1_5 | Vanilla_1_6
  | Vanilla_1_7 | Vanilla_1_8 => VanillaBase_install E self
  | MinecraftForge_1_6 | MinecraftForge_1_7 =>
      MinecraftForgeBase_install E self
  | BungeeCordServerWrapper => BungeeCordServerWrapper_install E self
  | Spigot => Spigot_install E self
  | MCServer => raise NotImplementedError
  end.

(** *** reinstall *)

(** [BaseServerWrapper.reinstall] *)
Definition reinstall (E : env) (app : application) (self : server)
    : M unit :=
  if is_online app self
  then raise (ServerIsOnlineError (PServer self) "")
  else
    with_TemporaryDirectory (fun tmp_dir =>
      tmp_server_path <- shutil_move (_server self) tmp_dir ;;
      inst <- is_installed self ;;
      (if inst then raise AssertionError else ret tt) ;;
      try_except (install E self)
        (fun e =>
           ex <- missing_argument "exists" "path" ;;
           (if ex : bool then
              d <- missing_argument "isdir" "s" ;;
              if d : bool then shutil_rmtree (_server self)
              else os_remove (_server self)
            else ret tt) ;;
           shutil_move tmp_server_path (_server self) ;;
           raise e)) ;;
    ret tt.

(** *** translate_command

    The result is a Python object: the abstract method of
    [BaseServerWrapper] hands back an exception object with [return]. *)

(** [BaseServerWrapper.translate_command] *)
Definition BaseServerWrapper_translate_command (cmd : string) : exc + pyobj :=
  inr (PExc NotImplementedError).

(** [VanillaBase.translate_command], and the same body in
    [MinecraftForgeBase] and [Spigot] *)
Definition VanillaBase_translate_command (cmd : string) : exc + pyobj :=
  inr (PStr cmd).

Definition MinecraftForgeBase_translate_command (cmd : string) : exc + pyobj :=
  inr (PStr cmd).

Definition Spigot_translate_command (cmd : string) : exc + pyobj :=
  inr (PStr cmd).

(** [BungeeCordServerWrapper.translate_command] *)
Definition BungeeCordServerWrapper_translate_command (cmd : string)
    : exc + pyobj :=
  let cmd := PyStr.strip cmd in
  let cmd :=
    if PyStr.startswith cmd "say "
    then "alert " +:+ PyStr.drop (String.length "say ") cmd
    else if String.eqb cmd "stop" then "end"
    else cmd in
  inr (PStr cmd).

Definition translate_command (c : server_class) (cmd : string) : exc + pyobj :=
  match c with
  | Vanilla_1_2 | Vanilla_1_3 | Vanilla_1_4 | Vanilla_1_5 | Vanilla_1_6
  | Vanilla_1_7 | Vanilla_1_8 => VanillaBase_translate_command cmd
  | MinecraftForge_1_6 | MinecraftForge_1_7 =>
      MinecraftForgeBase_translate_command cmd
  | BungeeCordServerWrapper => BungeeCordServerWrapper_translate_command cmd
  | Spigot => Spigot_translate_command cmd
  | MCServer => BaseServerWrapper_translate_command cmd
  end.

(** *** world_address *)

(** [open(p).read()] *)
Definition open_read (p : path) : M string :=
  fun st =>
    match lookup p (fs st) with
    | Some (File data) => (inr data, st)
    | _ => raise (OSError "open: no such file") st
    end.

(** ["^server-port\s*=\s*([\d]{1,5})\s*$"] *)
Definition port_re : Re.regex :=
  Re.seq [Re.RBol; Re.RLit "server-port"; Re.spaces; Re.RLit "="; Re.spaces;
          Re.RGroup (Re.digits 1 5); Re.spaces; Re.REol].

(** ["^server-ip\s*=\s*(\d{1,3}\.\d{1,3}\.\d{1,3}\.\d{1,3})\s*$"] *)
Definition ip_re : Re.regex :=
  Re.seq [Re.RBol; Re.RLit "server-ip"; Re.spaces; Re.RLit "="; Re.spaces;
          Re.RGroup Re.dotted_quad; Re.spaces; Re.REol].

(** The address a wrapper reports: [(ip, port)], [None] for [None]. *)
Definition address : Type := option string * option Z.

(** [VanillaBase.world_address] *)
Definition VanillaBase_world_address (w : world) : M address :=
  let conf_path := join (w_directory w) "server.properties" in
  try_except_else (open_read conf_path)
    (fun err => if is_OSError err then ret (None, None) else raise err)
    (fun conf =>
       let port := Re.findall port_re conf in
       let port := match port with
                   | p :: _ => Some (PyStr.int p)
                   | [] => None
                   end in
       let ip := Re.findall ip_re conf in
       let ip := match ip with i :: _ => i | [] => "localhost" end in
       ret (Some ip, port)).

(** [Spigot.world_address] *)
Definition Spigot_world_address (w : world) : M address :=
  let conf_path := join (w_directory w) "server.properties" in
  try_except_else (open_read conf_path)
    (fun err => if is_OSError err then ret (None, None) else raise err)
    (fun conf =>
       let port := Re.findall port_re conf in
       let port := match port with
                   | p :: _ => Some (PyStr.int p)
                   | [] => None
                   end in
       let ip := Re.findall ip_re conf in
       let ip := match ip with i :: _ => i | [] => "localhost" end in
       ret (Some ip, port)).

(** Subscription of a yaml node, [None] when Python raises ([KeyError],
    [IndexError] or [TypeError]). A key of a mapping is found by [==]:
    the string key by an equal string, the key [0] by [0] or [False]. *)
Definition yaml_is_str (k : string) (v : yaml) : bool :=
  match v with YStr s => String.eqb s k | _ => false end.

Definition yaml_is_zero (v : yaml) : bool :=
  match v with
  | YInt z => (z =? 0)%Z
  | YBool b => negb b
  | _ => false
  end.

Definition dict_get (p : yaml -> bool) (entries : list (yaml * yaml))
    : option yaml :=
  snd <$> List.find (fun kv => p (fst kv)) (rev entries).

(** [v[key]] for a string [key] *)
Definition getitem_str (key : string) (v : yaml) : option yaml :=
  match v with
  | YMap entries => dict_get (yaml_is_str key) entries
  | _ => None
  end.

(** [v[0]] *)
Definition getitem_0 (v : yaml) : option yaml :=
  match v with
  | YSeq items => head items
  | YMap entries => dict_get yaml_is_zero entries
  | YStr (String c _) => Some (YStr (String c EmptyString))
  | _ => None
  end.

(** The guarded suite
    [adr = conf["listeners"][0]["host"]; ip, port = adr.split(":")]:
    [None] when one of the steps raises; [adr.split] raises unless [adr]
    is a string, the unpacking raises unless [split] yields exactly two
    parts. *)
Definition first_listener_host (conf : yaml) : option yaml :=
  match getitem_str "listeners" conf with
  | None => None
  | Some listeners =>
      match getitem_0 listeners with
      | None => None
      | Some listener => getitem_str "host" listener
      end
  end.

Definition listener_host (conf : yaml) : option (string * string) :=
  match first_listener_host conf with
  | Some (YStr adr) =>
      match PyStr.split ":" adr with
      | [ip; port] => Some (ip, port)
      | _ => None
      end
  | _ => None
  end.

(** [BungeeCordServerWrapper.world_address] *)
Definition BungeeCordServerWrapper_world_address (E : env) (w : world)
    : M address :=
  let conf_path := join (w_directory w) "config.yml" in
  try_except_else
    (text <- open_read conf_path ;; lift (yaml_load E text))
    (fun err => if is_OSError err then ret (None, None) else raise err)
    (fun conf =>
       match listener_host conf with
       | None => ret (None, None)
       | Some (ip, port) =>
           let ip := PyStr.strip ip in
           let ip := if Re.matches Re.dotted_quad ip then Some ip else None in
           let ip := if bool_decide (ip = Some "0.0.0.0")
                     then Some "localhost" else ip in
           let port := PyStr.strip port in
           let port :=
             if Re.matches (Re.seq [Re.RBol; Re.digits 1 5; Re.REol]) port
             then Some (PyStr.int port) else None in
           ret (ip, port)
       end).

(** [self.world_address(world)], by the class of [self]: the forge
    classes inherit the method of [VanillaBase]. *)
Definition world_address (E : env) (c : server_class) (w : world)
    : M address :=
  match c with
  | Vanilla_1_2 | Vanilla_1_3 | Vanilla_1_4 | Vanilla_1_5 | Vanilla_1_6
  | Vanilla_1_7 | Vanilla_1_8
  | MinecraftForge_1_6 | MinecraftForge_1_7 => VanillaBase_world_address w
  | BungeeCordServerWrapper => BungeeCordServerWrapper_world_address E w
  | Spigot => Spigot_world_address w
  | MCServer => raise NotImplementedError
  end.

(** ** ServerManager *)

(** A class object handed to [ServerManager.add]: whether it inherits
    from [BaseServerWrapper], what its class method [name] does and what
    calling it with the application does.  The constructor gets the
    identity of the new object and may add a section to the
    configuration. *)
Record pyclass := {
  inherits_BaseServerWrapper : bool;
  class_name : exc + string;
  construct : application -> nat -> (exc + server) * application;
}.

(** [BaseServerWrapper.__init__] for the class [c] of this module.  The
    first call of [self.name()], for the logger, raises for a class
    without a name; the later calls then succeed. *)
Definition BaseServerWrapper_init (c : server_class) (app : application)
    (id : nat) : (exc + server) * application :=
  match name c with
  | inl e => (inl e, app)
  | inr n =>
      let sections :=
        match conf_server app !! n with
        | Some _ => conf_server app
        | None => <[n := empty_conf]> (conf_server app)
        end in
      (inr {| cls := c; oid := id;
              _server := join (paths_server app) n;
              _conf := default empty_conf (sections !! n) |},
       {| paths_server := paths_server app;
          conf_server := sections;
          worlds := worlds app |})
  end.

Definition class_of (c : server_class) : pyclass :=
  {| inherits_BaseServerWrapper := true;
     class_name := name c;
     construct := BaseServerWrapper_init c |}.

(** The manager: [self._app], [self._server] and the identity the next
    object gets. *)
Record ServerManager := {
  sm_app : application;
  sm_server : gmap string server;
  sm_next_oid : nat;
}.

(** [ServerManager.add] *)
Definition ServerManager_add (server_class : pyclass) (m : ServerManager)
    : (exc + unit) * ServerManager :=
  if negb (inherits_BaseServerWrapper server_class)
  then (inl (TypeError "server_class has to inherit from BaseServerWrapper"),
        m)
  else
    match class_name server_class with
    | inl e => (inl e, m)
    | inr n =>
        if bool_decide (is_Some (sm_server m !! n))
        then (inl (ValueError ("another server with the name '" +:+ n
                               +:+ "' has already been registered.")), m)
        else
          match construct server_class (sm_app m) (sm_next_oid m) with
          | (inl e, app') =>
              (inl e, {| sm_app := app'; sm_server := sm_server m;
                         sm_next_oid := sm_next_oid m |})
          | (inr s, app') =>
              (inr tt, {| sm_app := app';
                          sm_server := <[n := s]> (sm_server m);
                          sm_next_oid := S (sm_next_oid m) |})
          end
    end.

(** [ServerManager.get]: [None] is Python's [None]. *)
Definition ServerManager_get (servername : string) (m : ServerManager)
    : option server :=
  sm_server m !! servername.

(** [ServerManager.get_names] *)
Definition ServerManager_get_names (m : ServerManager) : list string :=
  (map_to_list (sm_server m)).*1.

(** [ServerManager.get_all] *)
Definition ServerManager_get_all (m : ServerManager) : list server :=
  (map_to_list (sm_server m)).*2.

(** The wrappers [__add_emsm_wrapper] loads. *)
Definition emsm_wrappers : list server_class :=
  [Vanilla_1_2; Vanilla_1_3; Vanilla_1_4; Vanilla_1_5; Vanilla_1_6;
   Vanilla_1_7; Vanilla_1_8; MinecraftForge_1_6; MinecraftForge_1_7;
   BungeeCordServerWrapper; Spigot].

(** [for wrapper in wrappers: self.add(wrapper)] *)
Fixpoint add_all (ws : list server_class) (m : ServerManager)
    : (exc + unit) * ServerManager :=
  match ws with
  | [] => (inr tt, m)
  | c :: ws' =>
      match ServerManager_add (class_of c) m with
      | (inr _, m') => add_all ws' m'
      | (inl e, m') => (inl e, m')
      end
  end.

(** [ServerManager.__init__] *)
Definition ServerManager_init (app : application)
    : (exc + unit) * ServerManager :=
  add_all emsm_wrappers
    {| sm_app := app; sm_server := ∅; sm_next_oid := 0 |}.

(** ** Vocabulary of the statements *)

(** The classes whose [translate_command] hands the command back. *)
Definition plain_console (c : server_class) : Prop :=
  c ≠ BungeeCordServerWrapper ∧ c ≠ MCServer.

(** The forge classes. *)
Definition is_forge (c : server_class) : Prop :=
  c = MinecraftForge_1_6 ∨ c = MinecraftForge_1_7.

(** [m] raises nothing but exceptions with the property [P]. *)
Definition raises_only {A} (P : exc → Prop) (m : M A) : Prop :=
  ∀ st e st', m st = (inl e, st') → P e.

Definition is_ServerInstallationFailure (e : exc) : bool :=
  match e with ServerInstallationFailure _ _ => true | _ => false end.

(** [m] leaves the current working directory alone or leaves it at [p]. *)
Definition cwd_stays_or {A} (p : path) (m : M A) : Prop :=
  ∀ st r st', m st = (r, st') → cwd st' = cwd st ∨ cwd st' = p.

(** What is installed for [self] in a state. *)
Definition installed (self : server) (st : state) : option node :=
  lookup (_server self) (fs st).

(** Texts: [lo] to [hi] decimal digits; four groups of one to three
    digits with dots between them; a text that begins with such groups;
    a text with the character [c] in it. *)
Definition digits_between (lo hi : nat) (w : string) : bool :=
  Re.all_in Re.CDigit w && (lo <=? String.length w)%nat
  && (String.length w <=? hi)%nat.

Definition dotted_quad_text (s : string) : Prop :=
  ∃ a b c d, s = a +:+ "." +:+ b +:+ "." +:+ c +:+ "." +:+ d
             ∧ digits_between 1 3 a = true ∧ digits_between 1 3 b = true
             ∧ digits_between 1 3 c = true ∧ digits_between 1 3 d = true.

Definition begins_with_dotted_quad (s : string) : Prop :=
  ∃ q rest, s = q +:+ rest ∧ dotted_quad_text q.

Fixpoint has_char (c : ascii) (s : string) : bool :=
  match s with
  | EmptyString => false
  | String a s' => Ascii.eqb a c || has_char c s'
  end.

(** The host of the first listener of [conf] is the text [ip:port],
    with this one colon. *)
Definition host_parts (conf : yaml) (ip port : string) : Prop :=
  first_listener_host conf = Some (YStr (ip +:+ ":" +:+ port))
  ∧ has_char ":" ip = false ∧ has_char ":" port = false.

(** The address of a host text when the text is cut at its last colon,
    the ip has to be a dotted quad and the port 1 to 5 digits. *)
Fixpoint rpartition (sep : ascii) (s : string) : option (string * string) :=
  match s with
  | EmptyString => None
  | String c s' =>
      match rpartition sep s' with
      | Some (a, b) => Some (String c a, b)
      | None => if Ascii.eqb c sep then Some (EmptyString, s') else None
      end
  end.

Definition is_dotted_quad (s : string) : bool :=
  match PyStr.split "." s with
  | [a; b; c; d] =>
      digits_between 1 3 a && digits_between 1 3 b && digits_between 1 3 c
      && digits_between 1 3 d
  | _ => false
  end.

Definition address_at_last_colon (host : string) : address :=
  match rpartition ":" host with
  | None => (None, None)
  | Some (ip, port) =>
      let ip := PyStr.strip ip in
      let port := PyStr.strip port in
      (if is_dotted_quad ip
       then Some (if String.eqb ip "0.0.0.0" then "localhost" else ip)
       else None,
       if digits_between 1 5 port then Some (PyStr.int port) else None)
  end.

(** The lines of a text, and whether one of them, taken alone, is
    matched by the pattern [r] from its first to its last character. *)
Definition lines (text : string) : list string :=
  PyStr.split PyStr.newline text.

Definition has_valid_line (r : Re.regex) (text : string) : bool :=
  existsb (Re.matches r) (lines text).

(** The text [key] occurs in [text]. *)
Definition occurs (key text : string) : Prop :=
  ∃ pre post, text = pre +:+ key +:+ post.

(** The classes that read [server.properties]. *)
Definition reads_server_properties (c : server_class) : Prop :=
  c ≠ BungeeCordServerWrapper ∧ c ≠ MCServer.

(** The temporary file the next [urlretrieve] writes. *)
Definition next_tmp (st : state) : path :=
  join tempdir ("tmp" +:+ pretty (tmp_seq st)).

(** The command [MinecraftForgeBase.install] runs in a state [st] it is
    entered in. *)
Definition forge_installer_cmd (st : state) : list string :=
  ["java"; "-jar"; show (next_tmp st); "--installServer"].

(** A state in which an installation of [self] gets as far as the
    installer: nothing is installed, the directory the server goes to
    exists and is not the temporary directory, the download answers with
    [data], the temporary directory exists and the name of the next
    temporary file is free. *)
Definition ready (E : env) (self : server) (st : state) (data : string)
    : Prop :=
  installed self st = None
  ∧ (∃ d c, _server self = d ++ [c] ∧ is_dir (lookup d (fs st)) = true)
  ∧ head (_server self) ≠ Some "tmp"
  ∧ (∃ u, url self = inr u ∧ fetch E u = inr data)
  ∧ is_dir (lookup tempdir (fs st)) = true
  ∧ lookup (next_tmp st) (fs st) = None.

(** The installer of the forge wrapper does not end with return code 0. *)
Definition installer_fails (E : env) (self : server) (st : state) : Prop :=
  match popen E (forge_installer_cmd st) (_server self) with
  | inl _ => True
  | inr pr => returncode pr ≠ 0%Z
  end.

(** What the installer leaves at the server path when it ends well. *)
Definition installer_result (E : env) (self : server) (st : state)
    : option node :=
  match popen E (forge_installer_cmd st) (_server self) with
  | inl _ => None
  | inr pr =>
      if (returncode pr =? 0)%Z then Some (Dir (produced pr ∪ ∅)) else None
  end.

(** ** Sample data

    A small installation: the server directory [/srv], the temporary
    directory [/tmp], a home directory the process starts in. *)

Module Sample.

Definition root (srv : gmap string node) : node :=
  Dir (<["srv" := Dir srv]> (<["tmp" := Dir ∅]> (<["home" := Dir ∅]> ∅))).

Definition start (srv : gmap string node) : state :=
  {| fs := root srv; cwd := ["home"]; tmp_seq := 0 |}.

Definition wrapper (c : server_class) (n : string) : server :=
  {| cls := c; oid := 7; _server := ["srv"; n]; _conf := empty_conf |}.

Definition vanilla : server := wrapper Vanilla_1_8 "vanilla 1.8".
Definition forge : server := wrapper MinecraftForge_1_7 "minecraft forge 1.7".
Definition bungeecord : server := wrapper BungeeCordServerWrapper "bungeecord".

Definition old_jar : node := File "old jar".

(** Nobody answers: every download fails. *)
Definition offline : env :=
  {| fetch := fun _ => inl (OSError "<urlopen error timed out>");
     popen := fun _ _ => inl (OSError "No such file or directory: 'java'");
     yaml_load := fun _ => inl (YAMLError "no document") |}.

(** Downloads work, the installer leaves a jar and exits with [rc]. *)
Definition online (rc : Z) : env :=
  {| fetch := fun _ => inr "installer";
     popen := fun _ _ =>
       inr {| returncode := rc;
              produced := <["forge-1.7.10-universal.jar" := File "forge"]> ∅ |};
     yaml_load := fun _ => inl (YAMLError "no document") |}.

Definition app (ws : list world) : application :=
  {| paths_server := ["srv"]; conf_server := ∅; worlds := ws |}.

Definition running_world : world :=
  {| w_server := 7; w_is_online := true; w_directory := ["home"; "w"] |}.

(** A manager before and after [__init__] has loaded the wrappers. *)
Definition empty_manager : ServerManager :=
  {| sm_app := app []; sm_server := ∅; sm_next_oid := 0 |}.

Definition manager : ServerManager := (ServerManager_init (app [])).2.

(** A proxy configuration with one listener bound to [host], a parser
    that yields it, the world directory with its files. *)
Definition proxy_conf (host : string) : yaml :=
  YMap [(YStr "listeners",
         YSeq [YMap [(YStr "motd", YStr "A proxy");
                     (YStr "host", YStr host)]])].

Definition parses_to (conf : yaml) : env :=
  {| fetch := fun _ => inl (OSError "<urlopen error timed out>");
     popen := fun _ _ => inl (OSError "No such file or directory: 'java'");
     yaml_load := fun _ => inr conf |}.

Definition nl : string := String PyStr.newline EmptyString.

(** [server.properties] with a port and an address; with an empty
    address and a stray line below it. *)
Definition properties : string :=
  "#Minecraft server properties" +:+ nl +:+ "server-port=25565" +:+ nl
  +:+ "server-ip=192.168.1.5" +:+ nl.

Definition properties_without_ip : string :=
  "server-port=25565" +:+ nl +:+ "server-ip=" +:+ nl +:+ "1.2.3.4" +:+ nl.

Definition world_files (files : gmap string node) : state :=
  {| fs := Dir (<["home" := Dir (<["w" := Dir files]> ∅)]> ∅);
     cwd := ["home"]; tmp_seq := 0 |}.

(** The world of a proxy, with a [config.yml] the parser is asked about,
    and the world of a minecraft server with its [server.properties]. *)
Definition proxy_world : state :=
  world_files {[ "config.yml" := File "listeners: ..." ]}.

Definition minecraft_world (text : string) : state :=
  world_files {[ "server.properties" := File text ]}.

(** The vanilla jar is installed. *)
Definition vanilla_installed : state :=
  start {[ "vanilla 1.8" := old_jar ]}.

End Sample.

(** * Properties *)

(** ** Strings *)

Lemma strip_prefix_app (p s : string) :
  PyStr.strip_prefix p (p +:+ s) = Some s.
Proof.
  induction p as [|a p IH]; simpl; [done|].
  by rewrite Ascii.eqb_refl.
Qed.

Lemma drop_app_length (p s : string) :
  PyStr.drop (String.length p) (p +:+ s) = s.
Proof. induction p as [|a p IH]; simpl; [by destruct s | done]. Qed.

(** ** translate_command *)

(** C7. [BungeeCordServerWrapper.translate_command] strips the command,
    turns ["say X"] into ["alert X"] and ["stop"] into ["end"] and hands
    every other stripped command back; for the vanilla, forge and spigot
    classes [translate_command] is the identity. *)
Theorem translate_command_table (cmd : string) :
  (∀ rest, PyStr.strip cmd = "say " +:+ rest →
     translate_command BungeeCordServerWrapper cmd
     = inr (PStr ("alert " +:+ rest)))
  ∧ (PyStr.strip cmd = "stop" →
     translate_command BungeeCordServerWrapper cmd = inr (PStr "end"))
  ∧ (PyStr.startswith (PyStr.strip cmd) "say " = false →
     PyStr.strip cmd ≠ "stop" →
     translate_command BungeeCordServerWrapper cmd
     = inr (PStr (PyStr.strip cmd)))
  ∧ (∀ c, plain_console c → translate_command c cmd = inr (PStr cmd)).
Proof.
  repeat split.
  - intros rest Hs. simpl.
    unfold BungeeCordServerWrapper_translate_command, PyStr.startswith.
    rewrite Hs, (strip_prefix_app "say " rest).
    by rewrite (drop_app_length "say " rest).
  - intros Hs. simpl.
    unfold BungeeCordServerWrapper_translate_command. by rewrite Hs.
  - intros Hsay Hstop. simpl.
    unfold BungeeCordServerWrapper_translate_command.
    rewrite Hsay.
    destruct (String.eqb_spec (PyStr.strip cmd) "stop"); [done|done].
  - intros c [Hb Hm]. by destruct c.
Qed.

Lemma translate_command_table_witness :
  translate_command BungeeCordServerWrapper "  say Hello World! "
  = inr (PStr "alert Hello World!")
  ∧ translate_command BungeeCordServerWrapper " stop "
    = inr (PStr "end")
  ∧ translate_command BungeeCordServerWrapper " list "
    = inr (PStr "list")
  ∧ translate_command MinecraftForge_1_7 " stop " = inr (PStr " stop ").
Proof.
  destruct (translate_command_table "  say Hello World! ") as (H1 & _).
  destruct (translate_command_table " stop ") as (_ & H2 & _ & H4).
  destruct (translate_command_table " list ") as (_ & _ & H3 & _).
  split; [apply (H1 "Hello World!"); reflexivity|].
  split; [apply H2; reflexivity|].
  split; [apply H3; [reflexivity | discriminate]|].
  apply H4. split; discriminate.
Defined.

(** C9. The placeholder class [MCServer] inherits
    [BaseServerWrapper.translate_command], which hands an exception
    object back as an ordinary value: the call does not raise. *)
Theorem MCServer_translate_command_returns (cmd : string) :
  translate_command MCServer cmd = inr (PExc NotImplementedError)
  ∧ ∀ e, translate_command MCServer cmd ≠ inl e.
Proof. split; [reflexivity | discriminate]. Qed.

(** ** reinstall of a server that is online *)

Lemma is_online_true (app : application) (self : server) (w : world) :
  w ∈ worlds app → w_server w = oid self → w_is_online w = true →
  is_online app self = true.
Proof.
  intros Hin Hs Ho. unfold is_online.
  assert (Hf : In w (List.filter
                       (fun w => Nat.eqb (w_server w) (oid self)
                                 && w_is_online w) (worlds app))).
  { apply filter_In. split; [by apply list_elem_of_In|].
    rewrite Hs, Nat.eqb_refl, Ho. done. }
  destruct (List.filter _ _); [destruct Hf | done].
Qed.

(** C3. When a world that runs with the server is online, [reinstall]
    raises [ServerIsOnlineError] and leaves the state, the file system
    with it, as it was. *)
Theorem reinstall_online_untouched (E : env) (app : application)
    (self : server) (st : state) :
  (∃ w, w ∈ worlds app ∧ w_server w = oid self ∧ w_is_online w = true) →
  reinstall E app self st = (inl (ServerIsOnlineError (PServer self) ""), st).
Proof.
  intros (w & Hin & Hs & Ho). unfold reinstall.
  by rewrite (is_online_true app self w Hin Hs Ho).
Qed.

Lemma reinstall_online_untouched_witness :
  reinstall Sample.offline (Sample.app [Sample.running_world]) Sample.vanilla
    Sample.vanilla_installed
  = (inl (ServerIsOnlineError (PServer Sample.vanilla) ""),
     Sample.vanilla_installed).
Proof.
  apply reinstall_online_untouched.
  exists Sample.running_world.
  split; [apply list_elem_of_here|]. split; reflexivity.
Defined.

(** ** ServerManager *)

Lemma get_names_NoDup (m : ServerManager) : NoDup (ServerManager_get_names m).
Proof. apply NoDup_fst_map_to_list. Qed.

Lemma get_absent (m : ServerManager) (n : string) :
  n ∉ ServerManager_get_names m → sm_server m !! n = None.
Proof.
  intros Hn. destruct (sm_server m !! n) as [s|] eqn:Hs; [|done].
  exfalso. apply Hn. unfold ServerManager_get_names.
  apply list_elem_of_fmap. exists (n, s).
  split; [done | by apply elem_of_map_to_list].
Qed.

(** C8. The names of the manager are pairwise different. Adding a class
    whose name is registered raises [ValueError] and leaves the manager
    as it was, the registered wrapper included; an accepted class adds
    exactly one entry, under its name, and touches no other; [get] of a
    name that is not registered is [None]. *)
Theorem ServerManager_names_unique (k : pyclass) (m : ServerManager)
    (n : string) :
  inherits_BaseServerWrapper k = true →
  class_name k = inr n →
  NoDup (ServerManager_get_names m)
  ∧ (∀ s, ServerManager_get n m = Some s →
       ∃ msg, ServerManager_add k m = (inl (ValueError msg), m)
              ∧ ServerManager_get n (ServerManager_add k m).2 = Some s)
  ∧ (∀ m', ServerManager_get n m = None →
       ServerManager_add k m = (inr tt, m') →
       (∃ s, (construct k (sm_app m) (sm_next_oid m)).1 = inr s
             ∧ sm_server m' = <[n := s]> (sm_server m))
       ∧ size (sm_server m') = S (size (sm_server m))
       ∧ (∀ n', n' ≠ n → ServerManager_get n' m' = ServerManager_get n' m)
       ∧ NoDup (ServerManager_get_names m'))
  ∧ (∀ n', n' ∉ ServerManager_get_names m → ServerManager_get n' m = None).
Proof.
  intros Hsub Hname. unfold ServerManager_get.
  split; [apply get_names_NoDup|]. split; [|split; [|apply get_absent]].
  - intros s Hs. unfold ServerManager_add.
    rewrite Hsub, Hname. simpl.
    rewrite bool_decide_eq_true_2 by (by rewrite Hs).
    eexists. split; [reflexivity | done].
  - intros m' Hnone Hadd. unfold ServerManager_add in Hadd.
    rewrite Hsub, Hname in Hadd. simpl in Hadd.
    rewrite bool_decide_eq_false_2 in Hadd
      by (rewrite Hnone; by intros [? ?]).
    destruct (construct k (sm_app m) (sm_next_oid m)) as [[e|s] app'] eqn:Hc;
      [done|].
    injection Hadd as <-. simpl.
    split; [by exists s|].
    split; [by apply map_size_insert_None|].
    split; [|apply get_names_NoDup].
    intros n' Hne. by rewrite lookup_insert_ne.
Qed.

Lemma ServerManager_names_unique_witness :
  (∃ s, ServerManager_get "spigot latest" Sample.manager = Some s
        ∧ ∃ msg, ServerManager_add (class_of Spigot) Sample.manager
                 = (inl (ValueError msg), Sample.manager))
  ∧ size (sm_server
            (ServerManager_add (class_of Spigot) Sample.empty_manager).2) = 1
  ∧ ServerManager_get "paper" Sample.manager = None.
Proof.
  set (m0 := Sample.empty_manager). set (m := Sample.manager).
  destruct (ServerManager_names_unique (class_of Spigot) m "spigot latest")
    as (_ & Hdup & _ & Hget); [reflexivity | reflexivity |].
  destruct (ServerManager_names_unique (class_of Spigot) m0 "spigot latest")
    as (_ & _ & Hnew & _); [reflexivity | reflexivity |].
  split; [|split].
  - destruct (ServerManager_get "spigot latest" m) as [s|] eqn:Hs.
    + exists s. split; [done|].
      destruct (Hdup s eq_refl) as (msg & Hadd & _). by exists msg.
    + vm_compute in Hs. discriminate Hs.
  - destruct (Hnew (ServerManager_add (class_of Spigot) m0).2)
      as (_ & Hsize & _); [reflexivity | reflexivity |].
    exact Hsize.
  - apply Hget. intros H%list_elem_of_In. vm_compute in H.
    intuition discriminate.
Defined.

(** ** Failing downloads *)

Lemma is_installed_absent (self : server) (st : state) :
  installed self st = None → is_installed self st = (inr false, st).
Proof.
  unfold installed, is_installed, os_path_exists. intros ->.
  by rewrite bool_decide_eq_false_2 by (by intros [? ?]).
Qed.

Lemma urlretrieve_fails (E : env) (u : string) (e : exc)
    (f : option path) (st : state) :
  fetch E u = inl e → urllib_request_urlretrieve E u f st = (inl e, st).
Proof. intros H. unfold urllib_request_urlretrieve, bind. by rewrite H. Qed.

(** C6. When the download fails with [e], [BungeeCordServerWrapper.install]
    raises a [ServerInstallationFailure] whose [server] is the error [e]
    and whose [msg] is ["None"]: the wrapper is not in the exception. *)
Theorem BungeeCord_install_failure_drops_server (E : env) (self : server)
    (st : state) (u : string) (e : exc) :
  cls self = BungeeCordServerWrapper →
  installed self st = None →
  url self = inr u →
  fetch E u = inl e →
  install E self st = (inl (ServerInstallationFailure (PExc e) "None"), st).
Proof.
  intros Hc Hi Hu He. unfold install. rewrite Hc.
  unfold BungeeCordServerWrapper_install, bind.
  rewrite (is_installed_absent self st Hi).
  unfold try_except_else, bind. rewrite Hu. simpl.
  by rewrite (urlretrieve_fails E u e None st He).
Qed.

Lemma BungeeCord_install_failure_drops_server_witness :
  install Sample.offline Sample.bungeecord (Sample.start ∅)
  = (inl (ServerInstallationFailure
            (PExc (OSError "<urlopen error timed out>")) "None"),
     Sample.start ∅).
Proof.
  apply (BungeeCord_install_failure_drops_server _ _ _
           "http://ci.md-5.net/job/BungeeCord/lastSuccessfulBuild/artifact/bootstrap/target/BungeeCord.jar");
    reflexivity.
Defined.

(** The sibling [VanillaBase.install] puts the wrapper and the text of
    the error into the exception. *)
Lemma VanillaBase_install_failure (E : env) (self : server) (st : state)
    (u : string) (e : exc) (m : string) :
  installed self st = None →
  url self = inr u →
  fetch E u = inl e →
  exc_str e = inr m →
  VanillaBase_install E self st
  = (inl (ServerInstallationFailure (PServer self) m), st).
Proof.
  intros Hi Hu He Hm. unfold VanillaBase_install, bind.
  rewrite (is_installed_absent self st Hi).
  unfold try_except_else, bind. rewrite Hu. simpl.
  rewrite (urlretrieve_fails E u e None st He).
  unfold raise_ServerInstallationFailure. simpl. by rewrite Hm.
Qed.

(** ** reinstall after a failed installation *)

Lemma write_or_raises {A} (e0 : exc) (o : option node) (x : A) st e st' :
  write_or e0 o x st = (inl e, st') → e = e0.
Proof.
  unfold write_or. destruct o; unfold bind, set_fs, ret, raise; intros H;
    by simplify_eq.
Qed.

Ltac raises_OSError :=
  intros st e st' H;
  repeat match type of H with
         | context [match ?x with _ => _ end] => destruct x eqn:?
         end;
  try (apply write_or_raises in H);
  by simplify_eq.

Lemma shutil_rmtree_raises (p : path) :
  raises_only is_OSError (shutil_rmtree p).
Proof. unfold shutil_rmtree, raise. raises_OSError. Qed.

Lemma os_rename_raises (src dst : path) :
  raises_only is_OSError (os_rename src dst).
Proof. unfold os_rename, raise. raises_OSError. Qed.

Lemma shutil_move_raises (src dst : path) :
  raises_only is_OSError (shutil_move src dst).
Proof.
  intros st e st'. unfold shutil_move, bind, os_path_isdir, os_path_exists.
  destruct (is_dir _); [destruct (bool_decide _)|].
  - unfold raise. intros H. by simplify_eq.
  - destruct (os_rename _ _ st) as [[e1|[]] st1] eqn:Hr; intros H;
      simplify_eq. by apply os_rename_raises in Hr.
  - destruct (os_rename _ _ st) as [[e1|[]] st1] eqn:Hr; intros H;
      simplify_eq. by apply os_rename_raises in Hr.
Qed.

Lemma tempfile_mkdtemp_raises (prefix : string) :
  raises_only is_OSError (tempfile_mkdtemp prefix).
Proof.
  intros st e st'.
  unfold tempfile_mkdtemp, bind, fresh_name, os_path_exists, raise.
  destruct (bool_decide _); intros H; [by simplify_eq|].
  by apply write_or_raises in H as ->.
Qed.

(** The [except] suite of [reinstall] stops at its first statement. *)
Lemma reinstall_rollback_raises (self : server) (tmp_server_path : path)
    (e : exc) (st : state) :
  (ex <- missing_argument "exists" "path" ;;
   (if ex : bool then
      d <- missing_argument "isdir" "s" ;;
      if d : bool then shutil_rmtree (_server self)
      else os_remove (_server self)
    else ret tt) ;;
   shutil_move tmp_server_path (_server self) ;;
   (raise e : M unit)) st
  = (inl (TypeError "exists() missing 1 required positional argument: 'path'"),
     st).
Proof. reflexivity. Qed.

(** C1. [reinstall] never raises [ServerInstallationFailure]: when
    [install] raises, the [except] suite raises [TypeError] at the call
    of [os.path.exists()] and does not move the saved server back.  For
    the vanilla wrapper with a jar installed and a network that is down:
    [reinstall] raises that [TypeError], the server path is empty and the
    temporary directory with the saved jar is gone. *)
Theorem reinstall_failure_loses_server :
  (∀ E app self st e,
     (reinstall E app self st).1 = inl e →
     is_ServerInstallationFailure e = false)
  ∧ installed Sample.vanilla Sample.vanilla_installed = Some Sample.old_jar
  ∧ (reinstall Sample.offline (Sample.app []) Sample.vanilla
       Sample.vanilla_installed).1
    = inl (TypeError "exists() missing 1 required positional argument: 'path'")
  ∧ installed Sample.vanilla
      (reinstall Sample.offline (Sample.app []) Sample.vanilla
         Sample.vanilla_installed).2 = None
  ∧ lookup tempdir
      (fs (reinstall Sample.offline (Sample.app []) Sample.vanilla
             Sample.vanilla_installed).2) = Some (Dir ∅).
Proof.
  split; [|repeat split; by vm_compute].
  intros E app self st e. unfold reinstall.
  destruct (is_online app self); [intros H; by simplify_eq/=|].
  unfold bind at 1.
  destruct (with_TemporaryDirectory _ st) as [[e1|[]] st1] eqn:Hw;
    simpl; [|done].
  intros H; simplify_eq.
  revert Hw. unfold with_TemporaryDirectory. unfold bind at 1.
  destruct (tempfile_mkdtemp "tmp" st) as [[e1|d] st2] eqn:Hd.
  { intros H; simplify_eq. apply tempfile_mkdtemp_raises in Hd.
    by destruct e. }
  unfold try_finally.
  match goal with |- context [let '(_, _) := ?b st2 in _] =>
    destruct (b st2) as [r st3] eqn:Hb end.
  destruct (shutil_rmtree d st3) as [[e1|[]] st4] eqn:Hrm.
  { intros H; simplify_eq. apply shutil_rmtree_raises in Hrm.
    by destruct e. }
  intros H; simplify_eq.
  revert Hb. unfold bind at 1.
  destruct (shutil_move (_server self) d st2) as [[e1|tp] st5] eqn:Hm.
  { intros H; simplify_eq. apply shutil_move_raises in Hm. by destruct e. }
  unfold bind at 1. unfold is_installed, os_path_exists.
  destruct (bool_decide _); unfold bind at 1; [intros H; by simplify_eq/=|].
  unfold ret at 1. unfold try_except.
  destruct (install E self st5) as [[e1|[]] st6]; [|intros H; by simplify_eq].
  rewrite reinstall_rollback_raises. intros H; by simplify_eq.
Qed.

(** ** The file system *)

Lemma lookup_nil (n : node) : lookup [] n = Some n.
Proof. done. Qed.

Lemma lookup_cons (c : string) (p : path) (ch : gmap string node) :
  lookup (c :: p) (Dir ch) = ch !! c ≫= lookup p.
Proof. done. Qed.

Lemma is_dir_Some (o : option node) :
  is_dir o = true → ∃ ch, o = Some (Dir ch).
Proof. destruct o as [[|ch]|]; [done | by exists ch | done]. Qed.

(** Writing below an entry of the root leaves the other entries. *)
Lemma lookup_other_entry (p : path) (c : string) (x : node)
    (root : gmap string node) :
  p ≠ [] → head p ≠ Some c →
  lookup p (Dir (<[c := x]> root)) = lookup p (Dir root).
Proof.
  destruct p as [|c' p]; [done|]. intros _ Hc.
  rewrite !lookup_cons, lookup_insert_ne; [done|].
  intros ->. by apply Hc.
Qed.

(** An entry that exists can be replaced or removed. *)
Lemma write_existing (p : path) (v : option node) (n : node) :
  p ≠ [] → is_Some (lookup p n) →
  ∃ n', write p v n = Some n' ∧ lookup p n' = v.
Proof.
  revert n. induction p as [|c p IH]; [done|]. intros n _ [x Hx].
  destruct n as [|ch]; [done|]. rewrite lookup_cons in Hx.
  destruct (ch !! c) as [n1|] eqn:Hc; [|done]. simpl in Hx.
  destruct p as [|c' p].
  - simpl. eexists. split; [done|]. simpl.
    destruct v; [by rewrite lookup_insert_eq | by rewrite lookup_delete_eq].
  - destruct (IH n1) as (n1' & Hw & Hl); [done | by exists x |].
    exists (Dir (<[c := n1']> ch)). split.
    + change (write (c :: c' :: p) v (Dir ch))
        with (n' ← ch !! c ≫= write (c' :: p) v; Some (Dir (<[c:=n']> ch))).
      rewrite Hc.
      change (Some n1 ≫= write (c' :: p) v) with (write (c' :: p) v n1).
      by rewrite Hw.
    + by rewrite lookup_cons, lookup_insert_eq.
Qed.

(** A new directory in a directory that exists. *)
Lemma mkdirs_new (d : path) (c : string) (n : node) :
  is_dir (lookup d n) = true → lookup (d ++ [c]) n = None →
  ∃ n', mkdirs (d ++ [c]) n = Some n'
        ∧ lookup (d ++ [c]) n' = Some (Dir ∅).
Proof.
  revert n. induction d as [|c' d IH]; intros n Hd Hp.
  - simpl in Hd. destruct n as [|ch]; [done|].
    rewrite app_nil_l, lookup_cons in Hp.
    destruct (ch !! c) eqn:Hc; [done|].
    exists (Dir (<[c := Dir ∅]> ch)). split.
    + simpl. by rewrite Hc.
    + by rewrite app_nil_l, lookup_cons, lookup_insert_eq.
  - destruct n as [|ch]; [done|]. rewrite lookup_cons in Hd.
    rewrite <- app_comm_cons, lookup_cons in Hp.
    destruct (ch !! c') as [n1|] eqn:Hc; [|done]. simpl in Hd, Hp.
    destruct (IH n1 Hd Hp) as (n1' & Hm & Hl).
    exists (Dir (<[c' := n1']> ch)). split.
    + rewrite <- app_comm_cons. simpl. rewrite Hc. simpl. by rewrite Hm.
    + by rewrite <- app_comm_cons, lookup_cons, lookup_insert_eq.
Qed.

(** ** The installation of a forge server *)

Lemma urlretrieve_tmp (E : env) (u data : string) (st : state) :
  fetch E u = inr data →
  is_dir (lookup tempdir (fs st)) = true →
  lookup (next_tmp st) (fs st) = None →
  ∃ root t,
    fs st = Dir root ∧ root !! "tmp" = Some (Dir t)
    ∧ urllib_request_urlretrieve E u None st
      = (inr (next_tmp st),
         {| fs := Dir (<["tmp" :=
                          Dir (<["tmp" +:+ pretty (tmp_seq st) := File data]> t)]>
                         root);
            cwd := cwd st; tmp_seq := S (tmp_seq st) |}).
Proof.
  intros Hf Ht Hn. unfold tempdir in Ht.
  destruct (fs st) as [|root] eqn:Hfs; [done|].
  rewrite lookup_cons in Ht.
  destruct (root !! "tmp") as [[|t]|] eqn:Hr; [done| |done].
  exists root, t. split; [done|]. split; [done|].
  unfold urllib_request_urlretrieve, bind, lift. rewrite Hf. simpl.
  unfold write_file. simpl. fold (next_tmp st). rewrite Hfs.
  unfold next_tmp, join, tempdir in Hn |- *. simpl in Hn |- *.
  rewrite Hr in Hn |- *. simpl in Hn |- *. rewrite Hn. simpl.
  done.
Qed.

Lemma forge_name (c : server_class) : is_forge c → ∃ n, name c = inr n.
Proof. intros [-> | ->]; by eexists. Qed.

Lemma forge_install_eq (E : env) (self : server) :
  is_forge (cls self) → install E self = MinecraftForgeBase_install E self.
Proof. unfold install. by intros [-> | ->]. Qed.

#[local] Arguments lookup : simpl never.
#[local] Arguments write : simpl never.
#[local] Arguments mkdirs : simpl never.
#[local] Arguments show : simpl never.
#[local] Arguments pretty : simpl never.


Lemma os_makedirs_new (p : path) (n' : node) (st : state) :
  lookup p (fs st) = None → mkdirs p (fs st) = Some n' →
  os_makedirs p st
  = (inr tt, {| fs := n'; cwd := cwd st; tmp_seq := tmp_seq st |}).
Proof.
  intros Hl Hm. unfold os_makedirs. rewrite Hl, Hm.
  by rewrite bool_decide_eq_false_2 by (by intros [? ?]).
Qed.

Lemma os_chdir_dir (p : path) (st : state) :
  is_dir (lookup p (fs st)) = true →
  os_chdir p st = (inr tt, {| fs := fs st; cwd := p; tmp_seq := tmp_seq st |}).
Proof. intros H. unfold os_chdir. by rewrite H. Qed.

Lemma os_path_samefile_here (p : path) (st : state) :
  cwd st = p → is_Some (lookup p (fs st)) →
  os_path_samefile_curdir p st = (inr true, st).
Proof.
  intros <- H. unfold os_path_samefile_curdir.
  rewrite !bool_decide_eq_true_2; done.
Qed.

Lemma run_process_fails (E : env) (argv : list string) (wd : path)
    (e : exc) (st : state) :
  popen E argv wd = inl e → run_process E argv wd st = (inl e, st).
Proof. intros H. unfold run_process, bind, lift. by rewrite H. Qed.

Lemma run_process_ends (E : env) (argv : list string) (wd : path)
    (pr : process) (ch : gmap string node) (n' : node) (st : state) :
  popen E argv wd = inr pr →
  wd ≠ [] →
  lookup wd (fs st) = Some (Dir ch) →
  write wd (Some (Dir (produced pr ∪ ch))) (fs st) = Some n' →
  run_process E argv wd st
  = (inr (returncode pr),
     {| fs := n'; cwd := cwd st; tmp_seq := tmp_seq st |}).
Proof.
  intros Hp Hne Hl Hw. unfold run_process, bind, lift. rewrite Hp. simpl.
  rewrite Hl. destruct wd; [done|]. by rewrite Hw.
Qed.

(** The outer handler of [MinecraftForgeBase.install] removes the
    directory the installation made. *)
Lemma forge_undo (p : path) (st : state) :
  p ≠ [] → is_dir (lookup p (fs st)) = true →
  ∃ n', when (bool_decide (is_Some (lookup p (fs st)))) (shutil_rmtree p) st
        = (inr tt, {| fs := n'; cwd := cwd st; tmp_seq := tmp_seq st |})
        ∧ lookup p n' = None.
Proof.
  intros Hne Hd. destruct (is_dir_Some _ Hd) as (ch & Hl).
  destruct (write_existing p None (fs st) Hne) as (n' & Hw & Hl');
    [by rewrite Hl|].
  exists n'. split; [|done].
  rewrite bool_decide_eq_true_2 by (by rewrite Hl). simpl.
  unfold shutil_rmtree. by rewrite Hd, Hw.
Qed.

(** Whatever the message is made of, the exception is raised. *)
Lemma raise_ServerInstallationFailure_raises {A} (server msg : pyobj)
    (st : state) :
  ∃ e, raise_ServerInstallationFailure (A:=A) server msg st = (inl e, st).
Proof.
  unfold raise_ServerInstallationFailure.
  destruct (py_str msg); by eexists.
Qed.

Lemma forge_install_run (E : env) (self : server) (st : state)
    (data : string) :
  is_forge (cls self) → ready E self st data →
  ∃ st', install E self st = (inr tt, st')
         ∧ cwd st' = _server self
         ∧ installed self st' = installer_result E self st.
Proof.
  intros Hc (Hi & (d & c & Hp & Hd) & Hout & (u & Hu & Hf) & Ht & Hn).
  rewrite (forge_install_eq E self Hc).
  destruct (forge_name _ Hc) as (nm & Hnm).
  unfold MinecraftForgeBase_install, bind.
  rewrite (is_installed_absent self st Hi).
  unfold try_except, try_except_else, lift.
  rewrite Hu. unfold ret at 1.
  destruct (urlretrieve_tmp E u data st Hf Ht Hn) as (root & t & Hfs & Hr & ->).
  assert (Hne : _server self ≠ []) by (rewrite Hp; by destruct d).
  unfold installed in Hi. rewrite Hfs in Hi, Hd.
  set (root1 := <["tmp" := _]> root).
  assert (Hi1 : lookup (_server self) (Dir root1) = None).
  { unfold root1. by rewrite lookup_other_entry. }
  assert (Hd1 : is_dir (lookup d (Dir root1)) = true).
  { destruct d as [|c' d]; [done|]. unfold root1.
    rewrite lookup_other_entry; [done | done |].
    by rewrite Hp in Hout. }
  rewrite Hp in Hi1.
  destruct (mkdirs_new d c (Dir root1) Hd1 Hi1) as (n2 & Hm & Hl2).
  rewrite <- Hp in Hi1, Hm, Hl2.
  unfold bind, os_path_exists, server_path. simpl.
  rewrite Hi1. simpl.
  rewrite (os_makedirs_new _ n2) by done. simpl.
  rewrite os_chdir_dir by (simpl; by rewrite Hl2). simpl.
  rewrite os_path_samefile_here by (simpl; by rewrite ?Hl2).
  unfold ret at 1. simpl.
  unfold installer_result, forge_installer_cmd.
  destruct (popen E _ (_server self)) as [e|pr] eqn:Hpo.
  - rewrite (run_process_fails E _ _ e) by done.
    match goal with |- context [raise_ServerInstallationFailure ?a ?b ?s] =>
      destruct (raise_ServerInstallationFailure_raises (A:=unit) a b s)
        as (e' & ->) end.
    match goal with |- context [when _ _ ?s] =>
      destruct (forge_undo (_server self) s Hne) as (n4 & -> & Hl4) end;
      [simpl; by rewrite Hl2|].
    eexists. split; [reflexivity|]. split; [done|]. done.
  - destruct (write_existing (_server self)
                (Some (Dir (produced pr ∪ ∅))) n2 Hne)
      as (n3 & Hw3 & Hl3); [by rewrite Hl2|].
    rewrite (run_process_ends E _ _ pr ∅ n3) by done. simpl.
    destruct (returncode pr =? 0)%Z.
    + eexists. split; [reflexivity|]. split; [done|]. done.
    + match goal with |- context [raise_ServerInstallationFailure ?a ?b ?s] =>
        destruct (raise_ServerInstallationFailure_raises (A:=unit) a b s)
          as (e1 & ->) end.
      match goal with |- context [raise_ServerInstallationFailure ?a ?b ?s] =>
        destruct (raise_ServerInstallationFailure_raises (A:=unit) a b s)
          as (e2 & ->) end.
      match goal with |- context [when _ _ ?s] =>
        destruct (forge_undo (_server self) s Hne) as (n4 & -> & Hl4) end;
        [simpl; by rewrite Hl3|].
      eexists. split; [reflexivity|]. split; [done|]. done.
Qed.

(** C2. [install] of a forge class returns normally after a failure:
    when the download fails, and when the download works but the
    installer cannot be run or ends with a return code other than 0.
    The exception raised for the failure is caught by the outer handler,
    which does not raise it again; nothing is installed afterwards. *)
Theorem MinecraftForge_install_swallows_failure (E : env) (self : server)
    (st : state) :
  is_forge (cls self) →
  installed self st = None →
  (∀ u e, url self = inr u → fetch E u = inl e →
     install E self st = (inr tt, st))
  ∧ (∀ data, ready E self st data → installer_fails E self st →
       ∃ st', install E self st = (inr tt, st')
              ∧ installed self st' = None).
Proof.
  intros Hc Hi. split.
  - intros u e Hu He.
    rewrite (forge_install_eq E self Hc).
    unfold MinecraftForgeBase_install, bind.
    rewrite (is_installed_absent self st Hi).
    unfold try_except, try_except_else, bind. rewrite Hu. simpl.
    rewrite (urlretrieve_fails E u e None st He). simpl.
    unfold os_path_exists, server_path. fold (installed self st). rewrite Hi.
    by rewrite bool_decide_eq_false_2 by (by intros [? ?]).
  - intros data Hr Hf.
    destruct (forge_install_run E self st data Hc Hr) as (st' & Hrun & _ & Hin).
    exists st'. split; [done|]. rewrite Hin.
    unfold installer_fails in Hf. unfold installer_result.
    destruct (popen E _ _) as [e|pr]; [done|].
    by destruct (Z.eqb_spec (returncode pr) 0).
Qed.

Lemma MinecraftForge_install_swallows_failure_witness :
  install Sample.offline Sample.forge (Sample.start ∅)
  = (inr tt, Sample.start ∅)
  ∧ ∃ st', install (Sample.online 1) Sample.forge (Sample.start ∅)
           = (inr tt, st')
           ∧ installed Sample.forge st' = None.
Proof.
  destruct (MinecraftForge_install_swallows_failure Sample.offline
              Sample.forge (Sample.start ∅)) as (Hnet & _);
    [by right | reflexivity |].
  destruct (MinecraftForge_install_swallows_failure (Sample.online 1)
              Sample.forge (Sample.start ∅)) as (_ & Hrc);
    [by right | reflexivity |].
  split.
  - apply (Hnet
             "http://files.minecraftforge.net/maven/net/minecraftforge/forge/1.7.10-10.13.2.1291/forge-1.7.10-10.13.2.1291-installer.jar"
             (OSError "<urlopen error timed out>")); reflexivity.
  - apply (Hrc "installer").
    + split; [reflexivity|].
      split; [by exists ["srv"], "minecraft forge 1.7"|].
      split; [discriminate|].
      split; [by eexists|].
      split; reflexivity.
    + unfold installer_fails. simpl. discriminate.
Defined.

(** ** The current working directory *)

Create HintDb cwd.

Section Cwd.
Variable p : path.

Lemma cwd_ret {A} (x : A) : cwd_stays_or p (ret x).
Proof. intros st r st' H. left. unfold ret in H. by simplify_eq. Qed.

Lemma cwd_raise {A} (e : exc) : cwd_stays_or p (raise (A:=A) e).
Proof. intros st r st' H. left. unfold raise in H. by simplify_eq. Qed.

Lemma cwd_lift {A} (x : exc + A) : cwd_stays_or p (lift x).
Proof. destruct x; [apply cwd_raise | apply cwd_ret]. Qed.

Lemma cwd_bind {A B} (m : M A) (k : A → M B) :
  cwd_stays_or p m → (∀ x, cwd_stays_or p (k x)) → cwd_stays_or p (bind m k).
Proof.
  intros Hm Hk st r st'. unfold bind.
  destruct (m st) as [[e|x] st1] eqn:H1; intros H.
  - simplify_eq. by apply (Hm _ _ _ H1).
  - destruct (Hm _ _ _ H1) as [<- | H1']; [by apply (Hk x _ _ _ H)|].
    destruct (Hk x _ _ _ H) as [-> | ->]; by right.
Qed.

Lemma cwd_try_except_else {A B} (m : M A) (h : exc → M B) (k : A → M B) :
  cwd_stays_or p m → (∀ e, cwd_stays_or p (h e)) →
  (∀ x, cwd_stays_or p (k x)) → cwd_stays_or p (try_except_else m h k).
Proof.
  intros Hm Hh Hk st r st'. unfold try_except_else.
  destruct (m st) as [[e|x] st1] eqn:H1; intros H.
  - destruct (Hm _ _ _ H1) as [<- | H1']; [by apply (Hh e _ _ _ H)|].
    destruct (Hh e _ _ _ H) as [-> | ->]; by right.
  - destruct (Hm _ _ _ H1) as [<- | H1']; [by apply (Hk x _ _ _ H)|].
    destruct (Hk x _ _ _ H) as [-> | ->]; by right.
Qed.

Lemma cwd_try_except {A} (m : M A) (h : exc → M A) :
  cwd_stays_or p m → (∀ e, cwd_stays_or p (h e)) →
  cwd_stays_or p (try_except m h).
Proof.
  intros Hm Hh.
  apply (cwd_try_except_else m h ret Hm Hh). intros x. apply cwd_ret.
Qed.

Lemma cwd_when (b : bool) (m : M unit) :
  cwd_stays_or p m → cwd_stays_or p (when b m).
Proof. destruct b; [done|]. intros _. apply cwd_ret. Qed.

Lemma cwd_if {A} (b : bool) (m1 m2 : M A) :
  cwd_stays_or p m1 → cwd_stays_or p m2 →
  cwd_stays_or p (if b then m1 else m2).
Proof. by destruct b. Qed.

Lemma cwd_write_or {A} (e : exc) (o : option node) (x : A) :
  cwd_stays_or p (write_or e o x).
Proof.
  intros st r st' H. left. unfold write_or in H.
  destruct o; unfold bind, set_fs, ret, raise in H; by simplify_eq.
Qed.

(** A call that rebuilds the state around the old [cwd]. *)
Ltac keeps_cwd :=
  intros st r st' H; left;
  repeat match type of H with
         | context [match ?x with _ => _ end] => destruct x eqn:?
         | context [if ?x then _ else _] => destruct x eqn:?
         end;
  try (unfold raise in H);
  first [ by simplify_eq
        | by (destruct (cwd_write_or _ _ _ _ _ _ H) as [-> | Hp];
              [done | done]) ].

Lemma cwd_os_path_exists (q : path) : cwd_stays_or p (os_path_exists q).
Proof. unfold os_path_exists. keeps_cwd. Qed.

Lemma cwd_fresh_name (prefix : string) : cwd_stays_or p (fresh_name prefix).
Proof. unfold fresh_name. keeps_cwd. Qed.

Lemma cwd_get_cwd : cwd_stays_or p get_cwd.
Proof. unfold get_cwd. keeps_cwd. Qed.

Lemma cwd_raise_ServerInstallationFailure {A} (server msg : pyobj) :
  cwd_stays_or p (raise_ServerInstallationFailure (A:=A) server msg).
Proof.
  unfold raise_ServerInstallationFailure.
  destruct (py_str msg); apply cwd_raise.
Qed.

Lemma cwd_shutil_rmtree (q : path) : cwd_stays_or p (shutil_rmtree q).
Proof.
  intros st r st'. unfold shutil_rmtree. destruct (is_dir _).
  - apply cwd_write_or.
  - apply cwd_raise.
Qed.

Lemma cwd_os_makedirs (q : path) : cwd_stays_or p (os_makedirs q).
Proof.
  intros st r st'. unfold os_makedirs. destruct (bool_decide _).
  - apply cwd_raise.
  - apply cwd_write_or.
Qed.

Lemma cwd_write_file (q : path) (data : string) :
  cwd_stays_or p (write_file q data).
Proof.
  intros st r st'. unfold write_file. destruct (is_dir _).
  - apply cwd_raise.
  - apply cwd_write_or.
Qed.

Lemma cwd_os_path_samefile_curdir (q : path) :
  cwd_stays_or p (os_path_samefile_curdir q).
Proof.
  intros st r st'. unfold os_path_samefile_curdir.
  destruct (_ && _); [|apply cwd_raise].
  intros H. left. by simplify_eq.
Qed.

Lemma cwd_run_process (E : env) (argv : list string) (wd : path) :
  cwd_stays_or p (run_process E argv wd).
Proof.
  unfold run_process. apply cwd_bind; [apply cwd_lift|].
  intros pr st r st'.
  destruct (lookup wd (fs st)) as [[|ch]|]; try apply cwd_raise.
  destruct wd; [|apply cwd_write_or].
  intros H. left. by simplify_eq.
Qed.

Lemma cwd_urlretrieve (E : env) (u : string) (f : option path) :
  cwd_stays_or p (urllib_request_urlretrieve E u f).
Proof.
  unfold urllib_request_urlretrieve. apply cwd_bind; [apply cwd_lift|].
  intros data. destruct f; [apply cwd_write_file|].
  apply cwd_bind; [apply cwd_fresh_name|]. intros n. apply cwd_write_file.
Qed.

(** The one call that moves the process, and only to [p]. *)
Lemma cwd_os_chdir : cwd_stays_or p (os_chdir p).
Proof.
  intros st r st'. unfold os_chdir. destruct (is_dir _).
  - intros H. right. by simplify_eq.
  - apply cwd_raise.
Qed.

End Cwd.

#[local] Hint Resolve cwd_ret cwd_raise cwd_lift cwd_when cwd_if
  cwd_os_path_exists cwd_fresh_name cwd_get_cwd
  cwd_raise_ServerInstallationFailure cwd_shutil_rmtree cwd_os_makedirs
  cwd_write_file cwd_os_path_samefile_curdir cwd_run_process cwd_urlretrieve
  cwd_os_chdir : cwd.

Ltac cwd_step :=
  lazymatch goal with
  | |- cwd_stays_or _ (bind _ _) => apply cwd_bind; [|intros ?]
  | |- cwd_stays_or _ (try_except _ _) => apply cwd_try_except; [|intros ?]
  | |- cwd_stays_or _ (try_except_else _ _ _) =>
      apply cwd_try_except_else; [|intros ?|intros ?]
  | |- cwd_stays_or _ (if _ then _ else _) => apply cwd_if
  | |- cwd_stays_or _ _ => solve [auto with cwd]
  end.

Lemma MinecraftForgeBase_install_cwd (E : env) (self : server) :
  cwd_stays_or (_server self) (MinecraftForgeBase_install E self).
Proof.
  unfold MinecraftForgeBase_install, is_installed, server_path.
  repeat cwd_step.
Qed.

(** C10. [install] of a forge class leaves the process in the directory
    it was in or in the server directory, the one place [os.chdir]
    takes it to; and when the installation gets as far as the installer
    the process stays in the server directory, whether the installer
    ends well or not: no path through [install] goes back. *)
Theorem MinecraftForge_install_moves_cwd (E : env) (self : server)
    (st : state) :
  is_forge (cls self) →
  (cwd (install E self st).2 = cwd st
   ∨ cwd (install E self st).2 = _server self)
  ∧ (∀ data, ready E self st data →
       cwd (install E self st).2 = _server self
       ∧ (cwd st ≠ _server self → cwd (install E self st).2 ≠ cwd st)).
Proof.
  intros Hc. split.
  - rewrite (forge_install_eq E self Hc).
    destruct (MinecraftForgeBase_install E self st) as [r st'] eqn:H.
    by apply (MinecraftForgeBase_install_cwd E self st r st').
  - intros data Hr.
    destruct (forge_install_run E self st data Hc Hr) as (st' & -> & Hcwd & _).
    simpl. split; [done|]. intros Hne. by rewrite Hcwd.
Qed.

Lemma MinecraftForge_install_moves_cwd_witness :
  cwd (Sample.start ∅) = ["home"]
  ∧ cwd (install (Sample.online 0) Sample.forge (Sample.start ∅)).2
    = ["srv"; "minecraft forge 1.7"]
  ∧ cwd (install (Sample.online 1) Sample.forge (Sample.start ∅)).2
    = ["srv"; "minecraft forge 1.7"].
Proof.
  assert (Hr : ∀ rc, ready (Sample.online rc) Sample.forge (Sample.start ∅)
                       "installer").
  { intros rc. split; [reflexivity|].
    split; [by exists ["srv"], "minecraft forge 1.7"|].
    split; [discriminate|]. split; [by eexists|]. split; reflexivity. }
  split; [reflexivity|]. split.
  - destruct (MinecraftForge_install_moves_cwd (Sample.online 0) Sample.forge
                (Sample.start ∅)) as (_ & H); [by right|].
    apply (H "installer" (Hr 0%Z)).
  - destruct (MinecraftForge_install_moves_cwd (Sample.online 1) Sample.forge
                (Sample.start ∅)) as (_ & H); [by right|].
    apply (H "installer" (Hr 1%Z)).
Defined.

(** ** Patterns and texts *)

Local Arguments String.append : simpl nomatch.

Lemma string_app_nil_r (s : string) : s +:+ "" = s.
Proof. induction s as [|c s IH]; simpl; [done | by rewrite IH]. Qed.

Lemma string_app_assoc (a b c : string) : (a +:+ b) +:+ c = a +:+ (b +:+ c).
Proof. induction a as [|x a IH]; simpl; [done | by rewrite IH]. Qed.

Lemma strip_prefix_Some (p s s' : string) :
  PyStr.strip_prefix p s = Some s' ↔ s = p +:+ s'.
Proof.
  revert s. induction p as [|a p IH]; intros s; simpl.
  - split; [by intros [= ->] | by intros ->].
  - destruct s as [|b s]; [done|].
    destruct (Ascii.eqb_spec a b) as [-> | Hne].
    + rewrite IH. split; [by intros -> | by intros [= ->]].
    + split; [done | intros [= -> _]; done].
Qed.

Lemma last_char_cons (c : ascii) (w : string) (prev : option ascii) :
  Re.last_char (String c w) prev = Re.last_char w (Some c).
Proof. unfold Re.last_char. simpl. by destruct w. Qed.

Lemma many_is_Some {R} (cs : Re.charset) (lo : nat) (hi : option nat)
    (prev : option ascii) (s : string)
    (k : option ascii → string → option R) :
  is_Some (Re.many cs lo hi prev s k)
  ↔ ∃ w s', s = w +:+ s' ∧ Re.all_in cs w = true ∧ (lo ≤ String.length w)%nat
            ∧ Re.within hi (String.length w)
            ∧ is_Some (k (Re.last_char w prev) s').
Proof.
  revert lo hi prev. induction s as [|c s IH]; intros lo hi prev.
  - simpl. split.
    + destruct lo; [|by intros [? ?]]. intros Hk.
      exists "", "". repeat split; [lia | by destruct hi; simpl; lia | done].
    + intros (w & s' & Hs & _ & Hlo & _ & Hk).
      destruct w; [|done]. simpl in Hs. subst s'.
      simpl in Hlo. by replace lo with 0 by lia.
  - simpl.
    assert (Hstop : is_Some (match lo with 0 => k prev (String c s) | S _ => None end)
                    ↔ lo = 0 ∧ is_Some (k prev (String c s))).
    { destruct lo; split; [by split | by intros [_ ?] | by intros [? ?]
                         | by intros [? _]]. }
    assert (Hempty : ∀ w s', String c s = w +:+ s' → w = "" →
              is_Some (k (Re.last_char w prev) s') → (lo ≤ String.length w)%nat →
              lo = 0 ∧ is_Some (k prev (String c s))).
    { intros w s' Hs -> Hk Hlo. simpl in *. subst s'. split; [lia | done]. }
    destruct (Re.in_charset cs c
              && match hi with Some 0 => false | _ => true end) eqn:Hc.
    + apply andb_true_iff in Hc as [Hc Hhi].
      destruct (Re.many cs (Nat.pred lo) (Nat.pred <$> hi) (Some c) s k)
        as [r|] eqn:Hm.
      * split; [intros _ | done].
        destruct (proj1 (IH (Nat.pred lo) (Nat.pred <$> hi) (Some c)))
          as (w & s' & -> & Hw & Hlo & Hh & Hk); [by rewrite Hm|].
        exists (String c w), s'. simpl. rewrite Hc, Hw, last_char_cons.
        repeat split; [lia | | done].
        destruct hi as [[|h]|]; simpl in *; [done | lia | done].
      * rewrite Hstop. split.
        { intros [-> Hk]. exists "", (String c s).
          repeat split; [simpl; lia | | done].
          destruct hi; simpl; [lia | done]. }
        intros (w & s' & Hs & Hw & Hlo & Hh & Hk).
        destruct w as [|c' w]; [by apply (Hempty "" s')|].
        exfalso. simpl in Hs. injection Hs as -> ->.
        assert (is_Some (Re.many cs (Nat.pred lo) (Nat.pred <$> hi) (Some c')
                           (w +:+ s') k)) as [? Hx]; [|by rewrite Hx in Hm].
        apply IH. exists w, s'. simpl in Hw.
        apply andb_true_iff in Hw as [_ Hw]. rewrite last_char_cons in Hk.
        repeat split; [done | simpl in Hlo; lia | | done].
        destruct hi as [[|h]|]; simpl in *; [lia | lia | done].
    + rewrite Hstop. split.
      * intros [-> Hk]. exists "", (String c s).
        repeat split; [simpl; lia | | done].
        destruct hi; simpl; [lia | done].
      * intros (w & s' & Hs & Hw & Hlo & Hh & Hk).
        destruct w as [|c' w]; [by apply (Hempty "" s')|].
        exfalso. simpl in Hs. injection Hs as -> ->. simpl in Hw.
        apply andb_true_iff in Hw as [Hc' _]. rewrite Hc' in Hc.
        destruct hi as [[|h]|]; simpl in *; [lia | done | done].
Qed.

Lemma run_is_Some {R} (ml : bool) (r : Re.regex) (prev : option ascii)
    (s : string) (cap : option string)
    (k : option ascii → string → option string → option R) :
  (∀ p t c c', is_Some (k p t c) → is_Some (k p t c')) →
  is_Some (Re.run ml r prev s cap k)
  ↔ ∃ p' s', Re.lang ml r prev s p' s' ∧ is_Some (k p' s' None).
Proof.
  revert prev s cap k.
  induction r as [text| | |cs lo hi|r1 IH1 r2 IH2|r IH];
    intros prev s cap k Hk; simpl.
  - destruct (PyStr.strip_prefix text s) as [s'|] eqn:Hp.
    + apply strip_prefix_Some in Hp as ->. split.
      * intros H. exists (Re.last_char text prev), s'.
        split; [done | by apply (Hk _ _ cap)].
      * intros (p' & s'' & [Hs ->] & H).
        apply (inj (String.append text)) in Hs as ->. by apply (Hk _ _ None).
    + split; [by intros [? ?]|].
      intros (p' & s' & [Hs _] & _).
      apply strip_prefix_Some in Hs. by rewrite Hs in Hp.
  - destruct (Re.at_bol ml prev).
    + split; [intros H; exists prev, s; split; [done | by apply (Hk _ _ cap)]|].
      intros (p' & s' & (_ & -> & ->) & H). by apply (Hk _ _ None).
    + split; [by intros [? ?] | by intros (? & ? & (? & _) & _)].
  - destruct (Re.at_eol ml s).
    + split; [intros H; exists prev, s; split; [done | by apply (Hk _ _ cap)]|].
      intros (p' & s' & (_ & -> & ->) & H). by apply (Hk _ _ None).
    + split; [by intros [? ?] | by intros (? & ? & (? & _) & _)].
  - rewrite many_is_Some. split.
    + intros (w & s' & Hs & Hw & Hlo & Hhi & H).
      exists (Re.last_char w prev), s'.
      split; [by exists w | by apply (Hk _ _ cap)].
    + intros (p' & s' & (w & Hs & Hw & Hlo & Hhi & ->) & H).
      exists w, s'. repeat split; [done..|]. by apply (Hk _ _ None).
  - rewrite IH1.
    + split.
      * intros (p1 & s1 & H1 & H2). apply IH2 in H2 as (p' & s' & H2 & H);
          [|done]. exists p', s'. split; [by exists p1, s1 | done].
      * intros (p' & s' & (p1 & s1 & H1 & H2) & H). exists p1, s1.
        split; [done|]. apply IH2; [done|]. by exists p', s'.
    + intros p t c c' H. apply IH2 in H; [|done]. by apply IH2.
  - rewrite IH; [|by intros p t c c' H].
    split.
    + intros (p' & s' & H1 & H). exists p', s'. split; [done|].
      by apply (Hk _ _ _ None) in H.
    + intros (p' & s' & H1 & H). exists p', s'. split; [done|].
      by apply (Hk _ _ None).
Qed.

(** [re.match(r, s)] finds a match iff a prefix of [s] is in the
    language of [r]. *)
Lemma matches_lang (r : Re.regex) (s : string) :
  Re.matches r s = true ↔ ∃ p' s', Re.lang false r None s p' s'.
Proof.
  unfold Re.matches, Re.re_match, Re.match_at.
  destruct (Re.run _ _ _ _ _ _) as [x|] eqn:Hr.
  - split; [intros _ | done].
    destruct (proj1 (run_is_Some false r None s None
                (λ _ s' cap, Some (default "" cap, s')) (λ _ _ _ _ _, ltac:(done))))
      as (p' & s' & H & _); [by rewrite Hr|]. by exists p', s'.
  - split; [done|]. intros (p' & s' & H).
    assert (is_Some (Re.run false r None s None
              (λ _ s' cap, Some (default "" cap, s')))) as [x Hx];
      [|by rewrite Hx in Hr].
    apply run_is_Some; [done|]. by exists p', s'.
Qed.



Lemma digits_between_spec (lo hi : nat) (w : string) :
  digits_between lo hi w = true
  ↔ Re.all_in Re.CDigit w = true ∧ (lo ≤ String.length w)%nat
    ∧ Re.within (Some hi) (String.length w).
Proof.
  unfold digits_between, Re.within.
  rewrite !andb_true_iff, !Nat.leb_le. tauto.
Qed.

Lemma matches_dotted_quad (s : string) :
  Re.matches Re.dotted_quad s = true ↔ begins_with_dotted_quad s.
Proof.
  rewrite matches_lang. unfold Re.dotted_quad, Re.seq, Re.digits. simpl.
  split.
  - intros (p' & s' & p1 & s1 & (a & -> & Ha1 & Ha2 & Ha3 & _)
            & p2 & s2 & [-> _]
            & p3 & s3 & (b & -> & Hb1 & Hb2 & Hb3 & _)
            & p4 & s4 & [-> _]
            & p5 & s5 & (c & -> & Hc1 & Hc2 & Hc3 & _)
            & p6 & s6 & [-> _]
            & p7 & s7 & (d & -> & Hd1 & Hd2 & Hd3 & _)
            & [-> _]).
    exists (a +:+ "." +:+ b +:+ "." +:+ c +:+ "." +:+ d), s'. split.
    + by rewrite !string_app_assoc.
    + exists a, b, c, d. rewrite !digits_between_spec. done.
  - intros (q & rest & -> & a & b & c & d & -> & Ha & Hb & Hc & Hd).
    apply digits_between_spec in Ha as (Ha1 & Ha2 & Ha3).
    apply digits_between_spec in Hb as (Hb1 & Hb2 & Hb3).
    apply digits_between_spec in Hc as (Hc1 & Hc2 & Hc3).
    apply digits_between_spec in Hd as (Hd1 & Hd2 & Hd3).
    rewrite !string_app_assoc.
    do 2 eexists. do 2 eexists. split; [by exists a|].
    do 2 eexists. split; [done|].
    do 2 eexists. split; [by exists b|].
    do 2 eexists. split; [done|].
    do 2 eexists. split; [by exists c|].
    do 2 eexists. split; [done|].
    do 2 eexists. split; [by exists d|]. done.
Qed.

Lemma at_eol_single (s : string) :
  Re.at_eol false s = true ↔ s = "" ∨ s = String PyStr.newline "".
Proof.
  destruct s as [|c s]; simpl; [naive_solver|].
  rewrite andb_true_iff. split.
  - intros [Hc Hs]. apply Ascii.eqb_eq in Hc as ->.
    destruct s; [by right | done].
  - intros [|[= -> ->]]; [done|]. by rewrite Ascii.eqb_refl.
Qed.

Lemma matches_port (s : string) :
  Re.matches (Re.seq [Re.RBol; Re.digits 1 5; Re.REol]) s = true
  ↔ ∃ w s', s = w +:+ s' ∧ digits_between 1 5 w = true
            ∧ (s' = "" ∨ s' = String PyStr.newline "").
Proof.
  rewrite matches_lang. unfold Re.seq, Re.digits. simpl. split.
  - intros (p' & s' & p1 & s1 & (_ & -> & _)
            & p2 & s2 & (w & -> & Hw1 & Hw2 & Hw3 & _)
            & p3 & s3 & (He & -> & _) & [Hs _]).
    simpl in Hs. subst s'. exists w, s2.
    rewrite digits_between_spec, <- at_eol_single. done.
  - intros (w & s' & -> & Hw & He).
    apply digits_between_spec in Hw as (Hw1 & Hw2 & Hw3).
    apply at_eol_single in He.
    do 2 eexists. do 2 eexists. split; [done|].
    do 2 eexists. split; [by exists w|].
    do 2 eexists. split; [done|]. done.
Qed.

Lemma rstrip_last (s w : string) (c : ascii) :
  PyStr.rstrip s = w +:+ String c "" → PyStr.is_space c = false.
Proof.
  revert w. induction s as [|a s IH]; intros w; simpl.
  - destruct w; simpl; discriminate.
  - destruct (PyStr.is_space a && PyStr.is_empty (PyStr.rstrip s)) eqn:Ha.
    + destruct w; simpl; discriminate.
    + destruct w as [|a' w]; simpl.
      * intros [= -> Hr]. rewrite Hr in Ha. simpl in Ha.
        by rewrite andb_true_r in Ha.
      * intros [= _ Hr]. by apply (IH w).
Qed.

(** A stripped text has 1 to 5 digits iff the port pattern matches. *)
Lemma matches_port_strip (s : string) :
  Re.matches (Re.seq [Re.RBol; Re.digits 1 5; Re.REol]) (PyStr.strip s)
  = digits_between 1 5 (PyStr.strip s).
Proof.
  apply eq_true_iff_eq. rewrite matches_port. split.
  - intros (w & s' & Hs & Hw & [-> | ->]).
    + by rewrite Hs, string_app_nil_r.
    + apply rstrip_last in Hs. done.
  - intros H. exists (PyStr.strip s), "".
    split; [by rewrite string_app_nil_r|]. split; [done | by left].
Qed.

Lemma split_no_sep (sep : ascii) (s : string) :
  has_char sep s = false → PyStr.split sep s = [s].
Proof.
  induction s as [|c s IH]; simpl; [done|].
  intros [Hc Hs]%orb_false_iff. rewrite Hc, (IH Hs). done.
Qed.

Lemma split_app (sep : ascii) (a b : string) :
  has_char sep a = false →
  PyStr.split sep (a +:+ String sep b) = a :: PyStr.split sep b.
Proof.
  induction a as [|c a IH]; simpl.
  - intros _. by rewrite Ascii.eqb_refl.
  - intros [Hc Ha]%orb_false_iff. rewrite Hc, (IH Ha). done.
Qed.

Lemma split_not_nil (sep : ascii) (s : string) : PyStr.split sep s ≠ [].
Proof.
  destruct s as [|c s]; simpl; [done|].
  destruct (Ascii.eqb c sep); [done|]. by destruct (PyStr.split sep s).
Qed.

Lemma split_single (sep : ascii) (s b : string) :
  PyStr.split sep s = [b] → s = b ∧ has_char sep b = false.
Proof.
  revert b. induction s as [|c s IH]; intros b; simpl.
  - by intros [= <-].
  - destruct (Ascii.eqb c sep) eqn:Hc.
    + intros [= _ Hs]. by apply split_not_nil in Hs.
    + destruct (PyStr.split sep s) as [|w ws] eqn:Hs;
        [by apply split_not_nil in Hs|].
      intros [= <- ->]. destruct (IH w eq_refl) as [-> Hw].
      split; [done|]. simpl. by rewrite Hc, Hw.
Qed.

Lemma split_two (sep : ascii) (s a b : string) :
  PyStr.split sep s = [a; b]
  ↔ s = a +:+ String sep b ∧ has_char sep a = false
    ∧ has_char sep b = false.
Proof.
  split.
  - revert a. induction s as [|c s IH]; intros a; simpl; [done|].
    destruct (Ascii.eqb_spec c sep) as [-> | Hne].
    + intros [= <- Hs]. apply split_single in Hs as [-> Hb]. done.
    + destruct (PyStr.split sep s) as [|w ws] eqn:Hs; [done|].
      intros [= <- ->]. destruct (IH w eq_refl) as (-> & Hw & Hb).
      repeat split; [|done]. simpl.
      rewrite Hw, orb_false_r. by apply Ascii.eqb_neq.
  - intros (-> & Ha & Hb). by rewrite split_app, split_no_sep.
Qed.

(** ** The address of a proxy *)

Lemma open_read_file (p : path) (text : string) (st : state) :
  lookup p (fs st) = Some (File text) → open_read p st = (inr text, st).
Proof. intros H. unfold open_read. by rewrite H. Qed.

Lemma open_read_fails (p : path) (st : state) :
  is_file (lookup p (fs st)) = false →
  ∃ m, open_read p st = (inl (OSError m), st).
Proof.
  intros H. unfold open_read.
  destruct (lookup p (fs st)) as [[|]|]; [done | by eexists..].
Qed.

Lemma listener_host_Some (conf : yaml) (ip port : string) :
  listener_host conf = Some (ip, port) ↔ host_parts conf ip port.
Proof.
  unfold listener_host, host_parts. split.
  - destruct (first_listener_host conf) as [[| | |adr| |]|]; try done.
    destruct (PyStr.split ":" adr) as [|a [|b [|? ?]]] eqn:Hs; try done.
    intros [= -> ->]. apply split_two in Hs as (-> & Ha & Hb). done.
  - intros (-> & Ha & Hb).
    by rewrite (proj2 (split_two ":" _ ip port)).
Qed.

Lemma dotted_quad_begins (s : string) :
  dotted_quad_text s → begins_with_dotted_quad s.
Proof. intros H. exists s, "". by rewrite string_app_nil_r. Qed.

(** C4, as the code has it. [BungeeCordServerWrapper.world_address]
    yields [(None, None)] when [config.yml] cannot be opened and when the
    host of the first listener is not a text [ip:port] with exactly one
    colon (a missing key, a host that is no string, no colon, several
    colons).  For a host [ip:port] with one colon, both parts stripped:
    the port is the number of a part of 1 to 5 digits and [None]
    otherwise; the ip is a part that is a dotted quad, ["localhost"] for
    ["0.0.0.0"], and [None] for a part that does not begin with a dotted
    quad. *)
Theorem BungeeCord_world_address_one_colon (E : env) (w : world)
    (st : state) :
  let r := world_address E BungeeCordServerWrapper w st in
  let conf_path := join (w_directory w) "config.yml" in
  (is_file (lookup conf_path (fs st)) = false → r = (inr (None, None), st))
  ∧ (∀ text conf,
       lookup conf_path (fs st) = Some (File text) →
       yaml_load E text = inr conf →
       ((∀ ip port, ¬ host_parts conf ip port) → r = (inr (None, None), st))
       ∧ (∀ ip port, host_parts conf ip port →
            ∃ a, r = (inr a, st)
                 ∧ a.2 = (if digits_between 1 5 (PyStr.strip port)
                          then Some (PyStr.int (PyStr.strip port)) else None)
                 ∧ (dotted_quad_text (PyStr.strip ip) →
                    a.1 = Some (if String.eqb (PyStr.strip ip) "0.0.0.0"
                                then "localhost" else PyStr.strip ip))
                 ∧ (¬ begins_with_dotted_quad (PyStr.strip ip) →
                    a.1 = None))).
Proof.
  intros r conf_path. subst r. simpl.
  unfold BungeeCordServerWrapper_world_address. fold conf_path.
  unfold try_except_else, bind. split.
  - intros Hf. destruct (open_read_fails conf_path st Hf) as (m & ->). done.
  - intros text conf Hl Hy. rewrite (open_read_file _ text) by done.
    rewrite Hy. simpl. split.
    + intros Hno. destruct (listener_host conf) as [[ip port]|] eqn:Hh; [|done].
      apply listener_host_Some in Hh. by apply Hno in Hh.
    + intros ip port Hh. rewrite (proj2 (listener_host_Some conf ip port) Hh).
      eexists. split; [reflexivity|]. simpl.
      rewrite matches_port_strip. split; [done|]. split.
      * intros Hq.
        rewrite (proj2 (matches_dotted_quad _) (dotted_quad_begins _ Hq)).
        destruct (String.eqb_spec (PyStr.strip ip) "0.0.0.0") as [-> | Hne].
        { done. }
        by rewrite bool_decide_eq_false_2 by (by intros [= ?]).
      * intros Hq. destruct (Re.matches Re.dotted_quad (PyStr.strip ip)) eqn:Hm.
        { by apply matches_dotted_quad in Hm. }
        done.
Qed.

Lemma BungeeCord_world_address_one_colon_witness :
  world_address (Sample.parses_to (Sample.proxy_conf "0.0.0.0:25577"))
    BungeeCordServerWrapper Sample.running_world Sample.proxy_world
  = (inr (Some "localhost", Some 25577%Z), Sample.proxy_world).
Proof.
  destruct (BungeeCord_world_address_one_colon
              (Sample.parses_to (Sample.proxy_conf "0.0.0.0:25577"))
              Sample.running_world Sample.proxy_world)
    as (_ & H).
  destruct (H "listeners: ..." (Sample.proxy_conf "0.0.0.0:25577"))
    as (_ & H2); [reflexivity | reflexivity |].
  destruct (H2 "0.0.0.0" "25577") as ([ip port] & -> & Hport & Hip & _).
  { split; [reflexivity | split; reflexivity]. }
  simpl in Hport, Hip. rewrite Hport, Hip; [reflexivity|].
  exists "0", "0", "0", "0". repeat split; reflexivity.
Defined.

(** The sentence of the specification cuts the host at its last colon:
    with the host ["::1:25577"] it yields the port 25577, the code yields
    [(None, None)]. *)
Lemma BungeeCord_last_colon_counterexample :
  (world_address (Sample.parses_to (Sample.proxy_conf "::1:25577"))
     BungeeCordServerWrapper Sample.running_world Sample.proxy_world).1
  = inr (None, None)
  ∧ address_at_last_colon "::1:25577" = (None, Some 25577%Z)
  ∧ (world_address (Sample.parses_to (Sample.proxy_conf "::1:25577"))
       BungeeCordServerWrapper Sample.running_world Sample.proxy_world).1
    ≠ inr (address_at_last_colon "::1:25577").
Proof.
  split; [by vm_compute|]. split; [by vm_compute|].
  vm_compute. discriminate.
Qed.

(** ** The address of a minecraft server *)

Lemma world_address_properties (E : env) (c : server_class) (w : world) :
  reads_server_properties c →
  world_address E c w = VanillaBase_world_address w.
Proof. intros [Hb Hm]. by destruct c. Qed.

(** The method never raises: it yields [(None, None)] when the file
    cannot be opened, and an address with an ip when it can. *)
Lemma VanillaBase_world_address_total (w : world) (st : state) :
  let conf_path := join (w_directory w) "server.properties" in
  (is_file (lookup conf_path (fs st)) = false →
   VanillaBase_world_address w st = (inr (None, None), st))
  ∧ (is_file (lookup conf_path (fs st)) = true →
     ∃ ip port, VanillaBase_world_address w st = (inr (Some ip, port), st)).
Proof.
  intros conf_path. unfold VanillaBase_world_address. fold conf_path.
  unfold try_except_else. split; intros Hf.
  - by destruct (open_read_fails conf_path st Hf) as (m & ->).
  - destruct (lookup conf_path (fs st)) as [[text|]|] eqn:Hl; [|done..].
    rewrite (open_read_file _ text) by done. by do 2 eexists.
Qed.

(** The file of the specification: port and address are read. *)
Lemma world_address_example (E : env) (c : server_class) :
  reads_server_properties c →
  world_address E c Sample.running_world
    (Sample.minecraft_world Sample.properties)
  = (inr (Some "192.168.1.5", Some 25565%Z),
     Sample.minecraft_world Sample.properties).
Proof. intros H. rewrite (world_address_properties E c _ H). by vm_compute. Qed.

Lemma match_at_lang (ml : bool) (r : Re.regex) (prev : option ascii)
    (s : string) (x : string * string) :
  Re.match_at ml r prev s = Some x → ∃ p' s', Re.lang ml r prev s p' s'.
Proof.
  unfold Re.match_at. intros H.
  destruct (proj1 (run_is_Some ml r prev s None
              (λ _ s' cap, Some (default "" cap, s'))
              (λ _ _ _ _ _, ltac:(done)))) as (p' & s' & Hl & _);
    [by rewrite H|]. by exists p', s'.
Qed.

Lemma findall_from_nil (r : Re.regex) (s : string) (prev : option ascii)
    (skip : nat) :
  (∀ pre suf prev', s = pre +:+ suf → Re.match_at true r prev' suf = None) →
  Re.findall_from r prev s skip = [].
Proof.
  revert prev skip. induction s as [|c s IH]; intros prev skip Hno.
  - destruct skip; simpl; [|done]. by rewrite (Hno "" "" prev).
  - assert (Hs : ∀ pre suf prev', s = pre +:+ suf →
                   Re.match_at true r prev' suf = None).
    { intros pre suf prev' ->. by apply (Hno (String c pre)). }
    destruct skip; simpl; [|by apply IH].
    rewrite (Hno "" (String c s) prev) by done. by apply IH.
Qed.

Lemma findall_no_key (r : Re.regex) (key conf : string) :
  (∀ prev s p' s', Re.lang true r prev s p' s' → ∃ rest, s = key +:+ rest) →
  ¬ occurs key conf → Re.findall r conf = [].
Proof.
  intros Hkey Hno. apply findall_from_nil. intros pre suf prev' ->.
  destruct (Re.match_at true r prev' suf) as [x|] eqn:Hm; [|done].
  apply match_at_lang in Hm as (p' & s' & Hl).
  apply Hkey in Hl as (rest & ->). exfalso. apply Hno. by exists pre, rest.
Qed.

Lemma ip_re_key (prev : option ascii) (s : string) (p' : option ascii)
    (s' : string) :
  Re.lang true ip_re prev s p' s' → ∃ rest, s = "server-ip" +:+ rest.
Proof.
  unfold ip_re, Re.seq. simpl.
  intros (p1 & s1 & (_ & -> & _) & p2 & s2 & [-> _] & _). by eexists.
Qed.

Lemma port_re_key (prev : option ascii) (s : string) (p' : option ascii)
    (s' : string) :
  Re.lang true port_re prev s p' s' → ∃ rest, s = "server-port" +:+ rest.
Proof.
  unfold port_re, Re.seq. simpl.
  intros (p1 & s1 & (_ & -> & _) & p2 & s2 & [-> _] & _). by eexists.
Qed.

(** Without the key there is no address to read: a file in which
    [server-ip] does not occur gives ["localhost"], a file in which
    [server-port] does not occur gives no port. *)
Lemma VanillaBase_world_address_no_key (w : world) (st : state)
    (conf : string) :
  lookup (join (w_directory w) "server.properties") (fs st)
  = Some (File conf) →
  (¬ occurs "server-ip" conf →
   ∃ port, VanillaBase_world_address w st = (inr (Some "localhost", port), st))
  ∧ (¬ occurs "server-port" conf →
     ∃ ip, VanillaBase_world_address w st = (inr (ip, None), st)).
Proof.
  intros Hl. unfold VanillaBase_world_address, try_except_else.
  rewrite (open_read_file _ conf) by done. split; intros Hno.
  - rewrite (findall_no_key ip_re "server-ip" conf ip_re_key Hno).
    by eexists.
  - rewrite (findall_no_key port_re "server-port" conf port_re_key Hno).
    by eexists.
Qed.

(** C5. A file whose [server-ip] line has no value, with a line below it
    that is an address and nothing else: no line of the file is a valid
    [server-ip] line, and yet the vanilla and the spigot wrapper report
    the address of the stray line, not ["localhost"].  The white space
    [\s*] of the pattern runs over the end of the line. *)
Theorem world_address_reads_across_lines (E : env) :
  lines Sample.properties_without_ip
  = ["server-port=25565"; "server-ip="; "1.2.3.4"; ""]
  ∧ has_valid_line ip_re Sample.properties_without_ip = false
  ∧ world_address E Vanilla_1_8 Sample.running_world
      (Sample.minecraft_world Sample.properties_without_ip)
    = (inr (Some "1.2.3.4", Some 25565%Z),
       Sample.minecraft_world Sample.properties_without_ip)
  ∧ world_address E Spigot Sample.running_world
      (Sample.minecraft_world Sample.properties_without_ip)
    = (inr (Some "1.2.3.4", Some 25565%Z),
       Sample.minecraft_world Sample.properties_without_ip).
Proof. repeat split; by vm_compute. Qed.
